(** * Session verification controller of the Sourcify server

    A shallow embedding of [src/server/controllers/VerificationController.ts]:
    the session endpoints, the block-explorer import pathway and the CREATE2
    pathway, together with the properties of the session state machine that
    the specification states about them.

    JavaScript objects used as dictionaries ([session.contractWrappers],
    [session.inputFiles]) are finite maps keyed by strings.  The wrappers of a
    session are mutable objects that are shared by reference: the batch handed
    to the orchestrator holds the very objects of the registry.  A batch is
    therefore a set of verification identifiers that are resolved in the
    registry when they are used, never a copy of the wrappers. *)

From stdpp Require Import gmap strings list fin_maps.
From Stdlib Require Import ZArith.

Open Scope string_scope.

(** ** Values thrown and returned *)

(** The error classes of [common/errors] that the controller throws, the
    plain [Error] of JavaScript, the [TypeError] raised when a property of
    [undefined] is read, and a thrown value that is not an [Error] at all. *)
Inductive Exception : Type :=
  | ValidationError (msg : string)
  | BadRequestError (msg : string)
  | NotFoundError (msg : string)
  | GenericError (msg : string)
  | TypeError (msg : string)
  | NonError (value : string).

(** [error.message]; a value that is not an [Error] has none. *)
Definition message (e : Exception) : string :=
  match e with
  | ValidationError m | BadRequestError m | NotFoundError m
  | GenericError m | TypeError m => m
  | NonError _ => ""
  end.

(** [error instanceof Error]. *)
Definition isError (e : Exception) : bool :=
  match e with
  | NonError _ => false
  | _ => true
  end.

(** An awaited call either returns or throws. *)
Inductive Outcome (A : Type) : Type :=
  | Returned (a : A)
  | Thrown (e : Exception).
Arguments Returned {A} a.
Arguments Thrown {A} e.

(** ** Data model *)

Record PathContent := mkPathContent { path : string; content : string }.

Record PathBuffer := mkPathBuffer { pb_path : string; buffer : string }.

(** [CheckedContract] of lib-sourcify, with the fields the controller reads
    and writes. *)
Record CheckedContract := mkCheckedContract {
  metadata : string;
  solidity : gmap string string;
  missing : list string;
  invalid : list string;
  creationBytecode : option string
}.

(** The constructor call [new CheckedContract(metadata, solidity, missing,
    invalid)]: a fresh object, without creation bytecode. *)
Definition newCheckedContract (md : string) (sol : gmap string string)
    (mis inv : list string) : CheckedContract :=
  mkCheckedContract md sol mis inv None.

(** Modelled from the spec: the status of a wrapper, declared with the
    [ContractWrapper] type in [VerificationController-util], is one of
    [pending | valid_runtime | valid_creation | false | error]. *)
Inductive Status : Type :=
  | pending
  | valid_runtime
  | valid_creation
  | status_false
  | error.

(** Modelled from the spec: the [Match] of lib-sourcify carries
    [{status: valid_runtime|valid_creation|false, message?, address,
    storageTimestamp?}]. *)
Inductive MatchStatus : Type :=
  | match_valid_runtime
  | match_valid_creation
  | match_false.

Record Match := mkMatch {
  match_address : string;
  match_status : MatchStatus;
  match_message : option string;
  match_storageTimestamp : option Z
}.

(** Truthiness of [match.status]: the two match kinds are non-empty strings,
    a non-match is falsy. *)
Definition truthyStatus (s : MatchStatus) : bool :=
  match s with
  | match_false => false
  | _ => true
  end.

(** [match.status || "error"]. *)
Definition statusOrError (s : MatchStatus) : Status :=
  match s with
  | match_valid_runtime => valid_runtime
  | match_valid_creation => valid_creation
  | match_false => error
  end.

(** Truthiness of an optional string: [undefined] and the empty string are
    falsy. *)
Definition truthy (o : option string) : bool :=
  match o with
  | Some s => negb (String.eqb s "")
  | None => false
  end.

Record ContractWrapper := mkContractWrapper {
  contract : CheckedContract;
  address : option string;
  chainId : option string;
  creatorTxHash : option string;
  status : Status;
  statusMessage : option string;
  storageTimestamp : option Z
}.

(** The contract a client sends back to the session verify endpoint. *)
Record SendableContract := mkSendableContract {
  verificationId : string;
  sc_address : option string;
  sc_chainId : option string;
  sc_creatorTxHash : option string
}.

Record Session := mkSession {
  inputFiles : gmap string string;
  contractWrappers : option (gmap string ContractWrapper);
  unusedSources : list string
}.

(** The registry of a session; a session that has no registry yet has no
    wrapper. *)
Definition registry (s : Session) : gmap string ContractWrapper :=
  default ∅ (contractWrappers s).

Definition setRegistry (cw : gmap string ContractWrapper) (s : Session) : Session :=
  mkSession (inputFiles s) (Some cw) (unusedSources s).

Definition setInputFiles (fs : gmap string string) (s : Session) : Session :=
  mkSession fs (contractWrappers s) (unusedSources s).

(** Field assignments on a wrapper. *)
Definition setTarget (a c : option string) (w : ContractWrapper) : ContractWrapper :=
  mkContractWrapper (contract w) a c (creatorTxHash w)
    (status w) (statusMessage w) (storageTimestamp w).

Definition setCreatorTxHash (h : option string) (w : ContractWrapper) : ContractWrapper :=
  mkContractWrapper (contract w) (address w) (chainId w) h
    (status w) (statusMessage w) (storageTimestamp w).

Definition setVerdict (st : Status) (msg : option string) (ts : option Z)
    (w : ContractWrapper) : ContractWrapper :=
  mkContractWrapper (contract w) (address w) (chainId w) (creatorTxHash w)
    st msg ts.

Definition setCreationBytecode (bc : option string) (w : ContractWrapper) : ContractWrapper :=
  mkContractWrapper
    (mkCheckedContract (metadata (contract w)) (solidity (contract w))
       (missing (contract w)) (invalid (contract w)) bc)
    (address w) (chainId w) (creatorTxHash w)
    (status w) (statusMessage w) (storageTimestamp w).

(** ** Collaborator calls that the properties observe *)

(** The world a handler runs in: the session of the request and the log of
    the calls made to the grouping step, to the orchestrator and to the
    result store, oldest first. *)
Inductive Call : Type :=
  | CallCheckContractsInSession
  | CallVerifyContractsInSession (batch : gset string)
  | CallStoreMatch (c : CheckedContract) (m : Match)
  | CallStoreMatchUndefined (m : Match).

Record World := mkWorld { session : Session; calls : list Call }.

Definition isStoreCall (c : Call) : bool :=
  match c with
  | CallStoreMatch _ _ | CallStoreMatchUndefined _ => true
  | _ => false
  end.

Definition isGroupingOrVerification (c : Call) : bool :=
  match c with
  | CallCheckContractsInSession | CallVerifyContractsInSession _ => true
  | CallStoreMatch _ _ | CallStoreMatchUndefined _ => false
  end.

(** What has been handed to the result store so far. *)
Definition persisted (w : World) : list Call := filter isStoreCall (calls w).

(** ** Handlers: state and exceptions *)

Definition Handler (A : Type) : Type := World → Outcome A * World.

Global Instance handler_ret : MRet Handler := λ A a w, (Returned a, w).

Global Instance handler_bind : MBind Handler := λ A B k m w,
  match m w with
  | (Returned a, w') => k a w'
  | (Thrown e, w') => (Thrown e, w')
  end.

Definition throw {A} (e : Exception) : Handler A := λ w, (Thrown e, w).

(** An awaited collaborator call whose result the environment decides. *)
Definition await {A} (o : Outcome A) : Handler A := λ w, (o, w).

Definition getSession : Handler Session := λ w, (Returned (session w), w).

Definition putSession (s : Session) : Handler unit :=
  λ w, (Returned tt, mkWorld s (calls w)).

Definition logCall (c : Call) : Handler unit :=
  λ w, (Returned tt, mkWorld (session w) (calls w ++ [c])).

(** [await this.repositoryService.storeMatch(contract, match)].  The call is
    logged; the store is taken to accept every match, so a rejection of the
    awaited call is outside this model. *)
Definition storeMatch (c : CheckedContract) (m : Match) : Handler unit :=
  logCall (CallStoreMatch c m).

(** The same call with [undefined] as contract. *)
Definition storeMatchUndefined (m : Match) : Handler unit :=
  logCall (CallStoreMatchUndefined m).

(** The calls a handler added to the log of [w] when it left [w']. *)
Definition newCalls (w w' : World) : list Call :=
  drop (length (calls w)) (calls w').

(** ** Requests *)

(** The outcome of the express-validator chains of a route travels with the
    request. *)
Record FilesRequest := mkFilesRequest {
  files_validation : list string;
  query_url : option string;
  files_body : list PathBuffer
}.

(** The solc-json submission: the uploaded files and
    [req.body.compilerVersion]. *)
Record SolcJsonRequest := mkSolcJsonRequest {
  solc_request : FilesRequest;
  solc_compilerVersion : string
}.

Record ContractRequest := mkContractRequest {
  contract_validation : list string;
  contract_address : string;
  contract_chainId : string
}.

Record LegacyVerifyRequest := mkLegacyVerifyRequest {
  legacy_validation : list string;
  body_address : string;
  body_chain : string;
  body_chainId : string
}.

Record Create2VerifyRequest := mkCreate2VerifyRequest {
  create2_validation : list string;
  deployerAddress : string;
  salt : string;
  abiEncodedConstructorArguments : option string;
  files : list PathBuffer;
  create2Address : string
}.

Record SessionCreate2VerifyRequest := mkSessionCreate2VerifyRequest {
  s_deployerAddress : string;
  s_salt : string;
  s_abiEncodedConstructorArguments : option string;
  s_verificationId : string;
  s_create2Address : string
}.

Record SolcJsonInput := mkSolcJsonInput { sources : gmap string string }.

Record EtherscanResult := mkEtherscanResult {
  compilerVersion : string;
  solcJsonInput : SolcJsonInput;
  contractName : string
}.

(** ** Responses *)

Record WrapperView := mkWrapperView {
  view_verificationId : string;
  view_missing : list string;
  view_invalid : list string;
  view_address : option string;
  view_chainId : option string;
  view_status : Status;
  view_statusMessage : option string
}.

Record SessionSnapshot := mkSessionSnapshot {
  contracts : list WrapperView;
  unused : list string
}.

Inductive Response : Type :=
  | SessionJSON (snapshot : SessionSnapshot)
  | MatchResult (result : list Match).

(** ** External collaborators *)

(** [IVerificationService]: the verification engine. *)
Class IVerificationService := {
  verifyDeployed :
    CheckedContract → string → string → option string → Outcome Match
}.

(** What the controller imports from lib-sourcify and bytecode-utils.
    [verifyCreate2] of the library is [libVerifyCreate2] here, the name
    [verifyCreate2] being the handler's. *)
Class LibSourcify := {
  libVerifyCreate2 :
    CheckedContract → string → string → string → option string → Outcome Match;
  libVerifyCreate2Undefined :
    string → string → string → option string → Outcome Match;
  recompile : CheckedContract → Outcome string;
  checkFiles : list PathBuffer → Outcome (list CheckedContract);
  isValid : CheckedContract → bool → bool;
  getBytecode : string → string → Outcome string;
  bytecodeDecode : string → Outcome (option string);
  getIpfsGateway : string;
  performFetch : string → Outcome (option string)
}.

(** The helpers of [VerificationController-util] that reach outside the
    session: request parsing, the block explorer, the compiler service and
    the contract grouper that [checkContractsInSession] runs. *)
Class ControllerUtil := {
  extractFiles : FilesRequest → option (list PathBuffer);
  extractFilesFromJSON : list PathBuffer → option (list PathBuffer);
  addRemoteFile : string → Outcome (list PathBuffer);
  bufferToString : string → string;
  stringToBase64 : string → string;
  stringifyMetadata : string → string;
  stringifyInvalidAndMissing : CheckedContract → string;
  processRequestFromEtherscan : string → string → Outcome EtherscanResult;
  getMetadataFromCompiler :
    string → SolcJsonInput → string → Outcome string;
  getMappedSourcesFromJsonInput : SolcJsonInput → gmap string string;
  groupContracts : Session → Session
}.

Section Controller.
Context `{!IVerificationService, !LibSourcify, !ControllerUtil}.

(** ** Helpers of [VerificationController-util] *)

(** [isEmpty] of lib-sourcify on a dictionary object. *)
Definition isEmpty {A} (m : gmap string A) : bool := bool_decide (m = ∅).

(** [!session.contractWrappers || isEmpty(session.contractWrappers)]. *)
Definition noWrappers (s : Session) : bool :=
  match contractWrappers s with
  | None => true
  | Some cw => isEmpty cw
  end.

(** Modelled from the spec: [isVerifiable] of [VerificationController-util].
    A wrapper is verifiable iff [missing] is empty, [invalid] is empty,
    [address] is set, and [chainId] is set. *)
Definition isVerifiable (w : ContractWrapper) : bool :=
  bool_decide (missing (contract w) = [])
  && bool_decide (invalid (contract w) = [])
  && bool_decide (is_Some (address w))
  && bool_decide (is_Some (chainId w)).

(** Modelled from the spec: [validateRequest] of
    [VerificationController-util].  A malformed or incomplete request fails
    with a [ValidationError] before the session is touched. *)
Definition validateRequest (errors : list string) : Handler unit :=
  match errors with
  | [] => mret tt
  | e :: _ => throw (ValidationError e)
  end.

(** Modelled from the spec: [saveFiles] of [VerificationController-util].
    Adds each path/content pair to the file store; a pair whose content is
    the one already stored at its path is a no-op, any other pair is stored
    (overwriting) and counted. *)
Definition saveFile (acc : nat * gmap string string) (pc : PathContent)
    : nat * gmap string string :=
  if decide (acc.2 !! path pc = Some (content pc)) then acc
  else (S acc.1, <[path pc := content pc]> acc.2).

(** Modelled from the spec: [saveFiles(pathContents, session)] returns the
    count of pairs whose content differed from what was stored, and leaves
    everything but the file store of the session as it was. *)
Definition saveFiles (pathContents : list PathContent) (s : Session)
    : nat * Session :=
  let r := foldl saveFile (0, inputFiles s) pathContents in
  (r.1, setInputFiles r.2 s).

(** Modelled from the spec: [getSessionJSON] of
    [VerificationController-util].  The session snapshot is
    [{ contracts: [wrapper-view...], unused files: [path...] }]; a wrapper
    view exposes the verification id, the missing and invalid lists, the
    address and chain if set, and the verification status and message. *)
Definition wrapperView (id : string) (w : ContractWrapper) : WrapperView :=
  mkWrapperView id (missing (contract w)) (invalid (contract w))
    (address w) (chainId w) (status w) (statusMessage w).

(** Modelled from the spec: the snapshot lists a view of every wrapper of
    the registry and the unused files. *)
Definition getSessionJSON (s : Session) : SessionSnapshot :=
  mkSessionSnapshot
    ((λ p, wrapperView p.1 p.2) <$> map_to_list (registry s))
    (unusedSources s).

(** Modelled from the spec: [checkContractsInSession] of
    [VerificationController-util] re-runs the contract grouping over the
    whole file store and reconciles the result into the registry; both are
    the collaborator [groupContracts]. *)
Definition checkContractsInSession : Handler unit :=
  logCall CallCheckContractsInSession ;;
  s ← getSession ;
  putSession (groupContracts s).

(** Modelled from the spec: [verifyContractsInSession] of
    [VerificationController-util], the orchestrator.  For each wrapper of the
    batch, independently: a wrapper that lacks a required field is not
    verifiable and is reported, not thrown (the file endpoints hand over the
    whole registry, and a wrapper without a target stays [pending]);
    otherwise a request is built from the wrapper's contract, chain, address
    and creatorTxHash and the engine is called.  A success sets the status to
    the match kind and the storage timestamp and stores the match; a
    well-formed non-match sets status [false] with the match's message; any
    failure sets status [error] with the failure's message.  No wrapper is
    removed. *)
Definition verdict (c : CheckedContract) (o : Outcome Match)
    (w : ContractWrapper) : ContractWrapper * list Call :=
  match o with
  | Returned m =>
      match match_status m with
      | match_valid_runtime =>
          (setVerdict valid_runtime None (match_storageTimestamp m) w,
           [CallStoreMatch c m])
      | match_valid_creation =>
          (setVerdict valid_creation None (match_storageTimestamp m) w,
           [CallStoreMatch c m])
      | match_false =>
          (setVerdict status_false (match_message m) (storageTimestamp w) w, [])
      end
  | Thrown e =>
      (setVerdict error (Some (message e)) (storageTimestamp w) w, [])
  end.

(** Modelled from the spec: steps 1 and 2 of the orchestrator, the request
    built from the wrapper's contract, chain, address and creatorTxHash and
    handed to the engine; there is no request without a target. *)
Definition callEngine (w : ContractWrapper) : option (Outcome Match) :=
  match address w, chainId w with
  | Some a, Some c => Some (verifyDeployed (contract w) c a (creatorTxHash w))
  | _, _ => None
  end.

(** Modelled from the spec: what the orchestrator does with one wrapper; a
    wrapper that is not verifiable is left as it is. *)
Definition verifyWrapper (w : ContractWrapper) : ContractWrapper * list Call :=
  if isVerifiable w
  then match callEngine w with
       | Some o => verdict (contract w) o w
       | None => (w, [])
       end
  else (w, []).

(** Modelled from the spec: the wrapper the orchestrator leaves. *)
Definition verified (w : ContractWrapper) : ContractWrapper := (verifyWrapper w).1.

(** Modelled from the spec: the matches the orchestrator stores for the
    wrapper of an identifier. *)
Definition storesOf (cw : gmap string ContractWrapper) (id : string) : list Call :=
  match cw !! id with
  | Some w => (verifyWrapper w).2
  | None => []
  end.

(** Modelled from the spec: the orchestrator updates each wrapper of the
    batch in place, in the registry of the session, and stores the matches. *)
Definition verifyOne (W : World) (id : string) : World :=
  match registry (session W) !! id with
  | Some w =>
      let r := verifyWrapper w in
      mkWorld (setRegistry (<[id := r.1]> (registry (session W))) (session W))
        (calls W ++ r.2)
  | None => W
  end.

(** Modelled from the spec: the wrappers of the batch, one after the other;
    the orchestrator returns nothing and does not throw. *)
Definition verifyEach (ids : list string) : Handler unit :=
  λ W, (Returned tt, foldl verifyOne W ids).

(** Modelled from the spec: [verifyContractsInSession(wrappers, session)]. *)
Definition verifyContractsInSession (batch : gset string) : Handler unit :=
  logCall (CallVerifyContractsInSession batch) ;;
  verifyEach (elements batch).

(** The batch [session.contractWrappers] that the file endpoints hand to the
    orchestrator: every wrapper of the registry. *)
Definition allWrappers (s : Session) : gset string := dom (registry s).

(** [res.send(getSessionJSON(session))]. *)
Definition sendSession : Handler Response :=
  s ← getSession ;
  mret (SessionJSON (getSessionJSON s)).

(** ** The handlers of the controller *)

Definition toPathContent (pb : PathBuffer) : PathContent :=
  mkPathContent (pb_path pb) (bufferToString (buffer pb)).

(** The files of a submission: fetched from [req.query.url] when there is
    one, extracted from the request otherwise. *)
Definition requestedFiles (req : FilesRequest)
    : Outcome (option (list PathBuffer)) :=
  if truthy (query_url req)
  then match addRemoteFile (default "" (query_url req)) with
       | Returned remote => Returned (Some remote)
       | Thrown e => Thrown e
       end
  else Returned (extractFiles req).

Definition addInputFilesEndpoint (req : FilesRequest) : Handler Response :=
  validateRequest (files_validation req) ;;
  inputFiles ← await (requestedFiles req) ;
  match inputFiles with
  | None => throw (ValidationError "No files found")
  | Some inputFiles =>
      let pathContents := toPathContent <$> inputFiles in
      s ← getSession ;
      let saved := saveFiles pathContents s in
      putSession saved.2 ;;
      (if decide (saved.1 = 0) then mret tt
       else
         checkContractsInSession ;;
         s' ← getSession ;
         verifyContractsInSession (allWrappers s') : Handler unit) ;;
      sendSession
  end.

(** The loop of the session verify endpoint over [req.body.contracts].  The
    wrapper named by a received contract, if the registry has one, is assigned
    the received address, chainId and creatorTxHash in place; it is put in the
    batch [verifiable] if it then satisfies [isVerifiable].  The registry is
    read by its own keys: an identifier that names a property every object
    inherits ([objectPrototypeKeys] below) is outside this model. *)
Definition assignReceived (rc : SendableContract) (w : ContractWrapper)
    : ContractWrapper :=
  setCreatorTxHash (sc_creatorTxHash rc)
    (setTarget (sc_address rc) (sc_chainId rc) w).

Definition receiveContract
    (st : gmap string ContractWrapper * gset string) (rc : SendableContract)
    : gmap string ContractWrapper * gset string :=
  let id := verificationId rc in
  match st.1 !! id with
  | Some contractWrapper =>
      let contractWrapper' := assignReceived rc contractWrapper in
      (<[id := contractWrapper']> st.1,
       if isVerifiable contractWrapper' then {[id]} ∪ st.2 else st.2)
  | None => st
  end.

(** What the loop has assigned to the wrapper [id] after one more received
    contract. *)
Definition assignNamed (id : string) (w : ContractWrapper)
    (rc : SendableContract) : ContractWrapper :=
  if decide (verificationId rc = id) then assignReceived rc w else w.

(** The property names a plain JavaScript object inherits from
    [Object.prototype]: [session.contractWrappers[id]] is truthy for them even
    when the registry has no wrapper under [id]. *)
Definition objectPrototypeKeys : list string :=
  ["constructor"; "__defineGetter__"; "__defineSetter__"; "hasOwnProperty";
   "__lookupGetter__"; "__lookupSetter__"; "isPrototypeOf";
   "propertyIsEnumerable"; "toString"; "valueOf"; "__proto__";
   "toLocaleString"].

Definition verifyContractsInSessionEndpoint
    (receivedContracts : list SendableContract) : Handler Response :=
  s ← getSession ;
  if noWrappers s
  then throw (BadRequestError "There are currently no pending contracts.")
  else
    let st := foldl receiveContract (registry s, ∅) receivedContracts in
    putSession (setRegistry st.1 s) ;;
    verifyContractsInSession st.2 ;;
    sendSession.

Definition metadataFileName : string := "metadata.json".

Definition addInputContractEndpoint (req : ContractRequest) : Handler Response :=
  validateRequest (contract_validation req) ;;
  bytecode ← await (getBytecode (contract_chainId req) (contract_address req)) ;
  metadataIpfsCid ← await (bytecodeDecode bytecode) ;
  if negb (truthy metadataIpfsCid)
  then throw (BadRequestError "The contract doesn't have a metadata IPFS CID")
  else
    let ipfsUrl := getIpfsGateway ++ default "" metadataIpfsCid in
    retrievedMetadataText ← await (performFetch ipfsUrl) ;
    if negb (truthy retrievedMetadataText)
    then throw (GenericError ("Could not retrieve metadata from " ++ ipfsUrl))
    else
      let pathContents :=
        [mkPathContent metadataFileName
           (stringToBase64 (default "" retrievedMetadataText))] in
      s ← getSession ;
      let saved := saveFiles pathContents s in
      putSession saved.2 ;;
      (if decide (saved.1 = 0) then mret tt
       else
         checkContractsInSession ;;
         s' ← getSession ;
         verifyContractsInSession (allWrappers s') : Handler unit) ;;
      sendSession.

Definition verifyFromEtherscan (req : LegacyVerifyRequest) : Handler Response :=
  validateRequest (legacy_validation req) ;;
  let chain := body_chain req in
  let addr := body_address req in
  r ← await (processRequestFromEtherscan chain addr) ;
  metadata ← await (getMetadataFromCompiler
                      (compilerVersion r) (solcJsonInput r) (contractName r)) ;
  let mappedSources := getMappedSourcesFromJsonInput (solcJsonInput r) in
  let checkedContract := newCheckedContract metadata mappedSources [] [] in
  match_ ← await (verifyDeployed checkedContract chain addr None) ;
  storeMatch checkedContract match_ ;;
  mret (MatchResult [match_]).

(** The loop of the session import over [Object.keys(session.contractWrappers)]:
    a wrapper without an address takes the target of the request. *)
Definition adoptTarget (addr chain : string) (w : ContractWrapper)
    : ContractWrapper :=
  if negb (truthy (address w))
  then setTarget (Some addr) (Some chain) w
  else w.

Definition importTarget (addr chain : string)
    (st : gmap string ContractWrapper * gset string) (id : string)
    : gmap string ContractWrapper * gset string :=
  match st.1 !! id with
  | Some contractWrapper =>
      let contractWrapper' := adoptTarget addr chain contractWrapper in
      (<[id := contractWrapper']> st.1,
       if isVerifiable contractWrapper' then {[id]} ∪ st.2 else st.2)
  | None => st
  end.

(** The files the session import synthesizes: the sources of the compiler
    input, then the metadata. *)
Definition importPathContents (input : SolcJsonInput) (metadata : string)
    : list PathContent :=
  ((λ p, mkPathContent p.1 (stringToBase64 p.2)) <$> map_to_list (sources input))
  ++ [mkPathContent "metadata.json" (stringToBase64 (stringifyMetadata metadata))].

Definition sessionVerifyFromEtherscan (req : LegacyVerifyRequest)
    : Handler Response :=
  validateRequest (legacy_validation req) ;;
  let chain := body_chainId req in
  let addr := body_address req in
  r ← await (processRequestFromEtherscan chain addr) ;
  metadata ← await (getMetadataFromCompiler
                      (compilerVersion r) (solcJsonInput r) (contractName r)) ;
  let pathContents := importPathContents (solcJsonInput r) metadata in
  s ← getSession ;
  let saved := saveFiles pathContents s in
  putSession saved.2 ;;
  if decide (saved.1 = 0)
  then throw (BadRequestError "The contract didn't add any new file")
  else
    checkContractsInSession ;;
    s' ← getSession ;
    match contractWrappers s' with
    | None =>
        throw (BadRequestError
                 "Unknown error during the Etherscan verification process")
    | Some cw =>
        let st := foldl (importTarget addr chain) (cw, ∅)
                    (map_to_list cw).*1 in
        putSession (setRegistry st.1 s') ;;
        verifyContractsInSession st.2 ;;
        sendSession
    end.

(** [checkFiles] wrapped in its [try]/[catch]: an [Error] thrown by the
    library is rethrown as a [BadRequestError] with the same message, any
    other thrown value is rethrown as it is. *)
Definition checkFilesOrBadRequest (inputFiles : list PathBuffer)
    : Handler (list CheckedContract) :=
  match checkFiles inputFiles with
  | Returned cs => mret cs
  | Thrown e =>
      if isError e then throw (BadRequestError (message e)) else throw e
  end.

Definition newline : string := String (Ascii.ascii_of_nat 10) "".

(** [errors.join("\n")]. *)
Definition joinLines (l : list string) : string :=
  match l with
  | [] => ""
  | x :: r => foldl (λ acc y, acc ++ newline ++ y) x r
  end.

Definition verifyCreate2 (req : Create2VerifyRequest) : Handler Response :=
  validateRequest (create2_validation req) ;;
  match extractFilesFromJSON (files req) with
  | None => throw (BadRequestError "No files found")
  | Some inputFiles =>
      checkedContracts ← checkFilesOrBadRequest inputFiles ;
      let errors :=
        stringifyInvalidAndMissing
          <$> filter (λ c, negb (isValid c true)) checkedContracts in
      match errors with
      | _ :: _ =>
          throw (BadRequestError
                   ("Invalid or missing sources in:" ++ newline
                      ++ joinLines errors))
      | [] =>
          match head checkedContracts with
          | None =>
              (* [checkedContracts[0]] is [undefined] *)
              match_ ← await (libVerifyCreate2Undefined (deployerAddress req)
                                (salt req) (create2Address req)
                                (abiEncodedConstructorArguments req)) ;
              (if truthyStatus (match_status match_)
               then storeMatchUndefined match_
               else mret tt : Handler unit) ;;
              mret (MatchResult [match_])
          | Some c =>
              match_ ← await (libVerifyCreate2 c (deployerAddress req)
                                (salt req) (create2Address req)
                                (abiEncodedConstructorArguments req)) ;
              (if truthyStatus (match_status match_)
               then storeMatch c match_
               else mret tt : Handler unit) ;;
              mret (MatchResult [match_])
          end
      end
  end.

(** The five assignments of the session CREATE2 verify operation. *)
Definition assignCreate2Match (m : Match) (w : ContractWrapper)
    : ContractWrapper :=
  setTarget (Some (match_address m)) (Some "0")
    (setVerdict (statusOrError (match_status m)) (match_message m)
       (match_storageTimestamp m) w).

(** [new CheckedContract(contractWrapper.contract.metadata,
    contractWrapper.contract.solidity, contractWrapper.contract.missing,
    contractWrapper.contract.invalid)]. *)
Definition checkedContractOf (w : ContractWrapper) : CheckedContract :=
  newCheckedContract (metadata (contract w)) (solidity (contract w))
    (missing (contract w)) (invalid (contract w)).

Definition sessionVerifyCreate2 (req : SessionCreate2VerifyRequest)
    : Handler Response :=
  s ← getSession ;
  if noWrappers s
  then throw (BadRequestError "There are currently no pending contracts.")
  else
    match registry s !! s_verificationId req with
    | None => throw (TypeError "Cannot read properties of undefined")
    | Some contractWrapper =>
        let c := checkedContractOf contractWrapper in
        match_ ← await (libVerifyCreate2 c (s_deployerAddress req)
                          (s_salt req) (s_create2Address req)
                          (s_abiEncodedConstructorArguments req)) ;
        putSession
          (setRegistry
             (<[s_verificationId req := assignCreate2Match match_ contractWrapper]>
                (registry s)) s) ;;
        (if truthyStatus (match_status match_)
         then storeMatch c match_
         else mret tt : Handler unit) ;;
        sendSession
    end.

Definition sessionPrecompileContract (verificationId : string)
    : Handler Response :=
  s ← getSession ;
  if noWrappers s
  then throw (BadRequestError "There are currently no pending contracts.")
  else
    match registry s !! verificationId with
    | None => throw (TypeError "Cannot read properties of undefined")
    | Some contractWrapper =>
        let checkedContract := checkedContractOf contractWrapper in
        creationBytecode ← await (recompile checkedContract) ;
        putSession
          (setRegistry
             (<[verificationId :=
                  setCreationBytecode (Some creationBytecode) contractWrapper]>
                (registry s)) s) ;;
        sendSession
    end.

End Controller.

(** * The client-token middleware, the routes it guards and the solc-json
    submission *)

(** [String.prototype.split] with a one-character separator: the pieces
    between the separators, in order; the empty string gives one empty
    piece. *)
Fixpoint splitOn (sep : Ascii.ascii) (s : string) : list string :=
  match s with
  | EmptyString => [""]
  | String c r =>
      if Ascii.eqb c sep then "" :: splitOn sep r
      else match splitOn sep r with
           | piece :: pieces => String c piece :: pieces
           | [] => [String c ""]
           end
  end.

(** [Array.prototype.join] with a one-character separator. *)
Fixpoint joinWith (sep : Ascii.ascii) (l : list string) : string :=
  match l with
  | [] => ""
  | [x] => x
  | x :: r => x ++ String sep (joinWith sep r)
  end.

Definition comma : Ascii.ascii := Ascii.ascii_of_nat 44.

Definition containsChar (c : Ascii.ascii) (s : string) : Prop :=
  c ∈ String.list_ascii_of_string s.

(** [authenticatedRequest]: [env] is [process.env.CREATE2_CLIENT_TOKENS],
    [clientToken] is [req.body.clientToken]; returning is the call of
    [next()]. *)
Definition authenticatedRequest (env : option string)
    (clientToken : option string) : Outcome unit :=
  if truthy env
  then
    let sourcifyClientTokens := splitOn comma (default "" env) in
    if negb (truthy clientToken)
    then Thrown (BadRequestError "This API is protected by a client token")
    else if bool_decide (default "" clientToken ∈ sourcifyClientTokens)
    then Returned tt
    else Thrown (BadRequestError "The client token you provided is not valid")
  else Returned tt.

(** What the solc-json submission needs from outside: [JSON.parse] (no
    result when it throws), [buffer.toString()] and the library function
    that compiles the JSON input into metadata and source files. *)
Class SolcJsonLib := {
  jsonParse : string → option string;
  bufferToUtf8 : string → string;
  getAllMetadataAndSourcesFromSolcJson :
    string → string → Outcome (list PathBuffer)
}.

(** The response object as the loop of the solc-json submission uses it:
    [res.send(body)] when the bodies [sent] went out before.  What Express
    does with a send after the first is not the controller's business and is
    left open. *)
Class ExpressResponse := {
  resSend : list Response → Response → Outcome unit
}.

Section Routes.
Context `{!IVerificationService, !LibSourcify, !ControllerUtil, !SolcJsonLib,
          !ExpressResponse}.

Definition getSessionDataEndpoint : Handler Response := sendSession.

(** The body of the loop of [addInputSolcJsonEndpoint], for one input file:
    the file is parsed, compiled into metadata and sources, these are saved,
    the contracts are regrouped if a file is new, and the session is sent. *)
Definition addInputSolcJsonFile (compilerVersion : string)
    (inputFile : PathBuffer) : Handler Response :=
  match jsonParse (bufferToUtf8 (buffer inputFile)) with
  | None =>
      throw (BadRequestError
               ("Couldn't parse JSON " ++ pb_path inputFile
                  ++ ". Make sure the contents of the file are syntaxed correctly."))
  | Some solcJson =>
      metadataAndSources ←
        await (getAllMetadataAndSourcesFromSolcJson solcJson compilerVersion) ;
      let metadataAndSourcesPathContents := toPathContent <$> metadataAndSources in
      s ← getSession ;
      let saved := saveFiles metadataAndSourcesPathContents s in
      putSession saved.2 ;;
      (if decide (saved.1 = 0) then mret tt
       else checkContractsInSession : Handler unit) ;;
      sendSession
  end.

(** The loop of [addInputSolcJsonEndpoint]: the input files in turn, the
    snapshot of the session being sent after each one; [sent] holds the
    bodies sent so far.  The loop ends at the first file or send that
    throws. *)
Fixpoint addInputSolcJsonFiles (compilerVersion : string)
    (inputFiles : list PathBuffer) (sent : list Response)
    : Handler (list Response) :=
  match inputFiles with
  | [] => mret sent
  | inputFile :: rest =>
      body ← addInputSolcJsonFile compilerVersion inputFile ;
      await (resSend sent body) ;;
      addInputSolcJsonFiles compilerVersion rest (sent ++ [body])%list
  end.

(** The handler answers with the bodies it sent, in order. *)
Definition addInputSolcJsonEndpoint (req : SolcJsonRequest)
    : Handler (list Response) :=
  validateRequest (files_validation (solc_request req)) ;;
  match extractFiles (solc_request req) with
  | None => throw (ValidationError "No files found")
  | Some inputFiles =>
      addInputSolcJsonFiles (solc_compilerVersion req) inputFiles []
  end.

(** The routes [/verify/create2] and [/session/verify/create2]: the
    middleware [authenticatedRequest], then the handler. *)
Definition routeVerifyCreate2 (env clientToken : option string)
    (req : Create2VerifyRequest) : Handler Response :=
  await (authenticatedRequest env clientToken) ;;
  verifyCreate2 req.

Definition routeSessionVerifyCreate2 (env clientToken : option string)
    (req : SessionCreate2VerifyRequest) : Handler Response :=
  await (authenticatedRequest env clientToken) ;;
  sessionVerifyCreate2 req.

End Routes.

(** * Sample collaborators and sessions

    Concrete stand-ins for the collaborators and a few sessions, on which the
    handlers are run further down. *)

(** An engine whose chain RPC fails for the address ["0xdead"], that finds
    no match on chain ["5"] and a runtime match anywhere else. *)
Definition sampleEngine : IVerificationService := {|
  verifyDeployed := λ c chain addr creatorTx,
    if String.eqb addr "0xdead" then Thrown (GenericError "network error")
    else if String.eqb chain "5"
    then Returned (mkMatch addr match_false (Some "bytecode mismatch") None)
    else Returned (mkMatch addr match_valid_runtime None (Some 1700000000%Z))
|}.

(** A library whose CREATE2 recomputation always yields ["0xc2"]. *)
Definition sampleLib : LibSourcify := {|
  libVerifyCreate2 := λ c deployer salt claimed args,
    if String.eqb claimed "0xc2"
    then Returned (mkMatch "0xc2" match_valid_creation None (Some 1700000000%Z))
    else Returned (mkMatch "0xc2" match_false (Some "address mismatch") None);
  libVerifyCreate2Undefined := λ deployer salt claimed args,
    Thrown (TypeError "Cannot read properties of undefined");
  recompile := λ c, Returned "0x6080";
  checkFiles := λ inputFiles,
    Returned [mkCheckedContract "{}" ∅ [] [] None];
  isValid := λ c ignoreMissing,
    bool_decide (invalid c = [])
    && (ignoreMissing || bool_decide (missing c = []));
  getBytecode := λ chain addr, Returned "0x60";
  bytecodeDecode := λ bytecode, Returned (Some "QmSample");
  getIpfsGateway := "https://ipfs.io/ipfs/";
  performFetch := λ url, Returned (Some "{}")
|}.

Definition sampleUtil : ControllerUtil := {|
  extractFiles := λ req,
    match files_body req with [] => None | fs => Some fs end;
  extractFilesFromJSON := λ fs,
    match fs with [] => None | _ => Some fs end;
  addRemoteFile := λ url, Returned [mkPathBuffer url "remote"];
  bufferToString := λ b, b;
  stringToBase64 := λ t, t;
  stringifyMetadata := λ md, md;
  stringifyInvalidAndMissing := metadata;
  processRequestFromEtherscan := λ chain addr,
    Returned (mkEtherscanResult "0.8.19"
                (mkSolcJsonInput {["A.sol" := "contract A {}"]}) "A");
  getMetadataFromCompiler := λ version input name, Returned "{}";
  getMappedSourcesFromJsonInput := sources;
  groupContracts := λ s, s
|}.

(** A compiler front end for which every text but the empty one is JSON,
    and that compiles a JSON input into one source file named after it. *)
Definition sampleSolcJson : SolcJsonLib := {|
  jsonParse := λ text, if String.eqb text "" then None else Some text;
  bufferToUtf8 := λ b, b;
  getAllMetadataAndSourcesFromSolcJson := λ solcJson version,
    Returned [mkPathBuffer solcJson "contract"]
|}.

(** A response object that accepts one send and refuses any other. *)
Definition sampleResponse : ExpressResponse := {|
  resSend := λ sent body,
    match sent with
    | [] => Returned tt
    | _ :: _ =>
        Thrown (GenericError
                  "Cannot set headers after they are sent to the client")
    end
|}.

Definition completeContract : CheckedContract :=
  mkCheckedContract "{}" {["A.sol" := "contract A {}"]} [] [] None.

Definition incompleteContract : CheckedContract :=
  mkCheckedContract "{}" {["A.sol" := "contract A {}"]} ["B.sol"] [] None.

(** A wrapper that has been matched at ["0xaaa"] on chain ["1"]. *)
Definition wrapperVerified : ContractWrapper :=
  mkContractWrapper completeContract (Some "0xaaa") (Some "1") None
    valid_runtime None (Some 1700000000%Z).

(** A pending wrapper with a missing source and no target. *)
Definition wrapperIncomplete : ContractWrapper :=
  mkContractWrapper incompleteContract None None None pending None None.

(** A wrapper whose earlier attempt failed and that has no target. *)
Definition wrapperFailed : ContractWrapper :=
  mkContractWrapper completeContract None None None
    error (Some "network error") None.

(** Two verifiable pending wrappers: the engine fails for the first. *)
Definition wrapperUnreachable : ContractWrapper :=
  mkContractWrapper completeContract (Some "0xdead") (Some "1") None
    pending None None.

Definition wrapperReady : ContractWrapper :=
  mkContractWrapper completeContract (Some "0xccc") (Some "1") None
    pending None None.

Definition worldOf (fs : gmap string string)
    (cw : gmap string ContractWrapper) : World :=
  mkWorld (mkSession fs (Some cw) []) [].

Definition worldVerified : World :=
  worldOf ∅ {["c1" := wrapperVerified]}.

Definition worldIncomplete : World :=
  worldOf ∅ (<["c1" := wrapperIncomplete]> {["c2" := wrapperFailed]}).

Definition worldBatch : World :=
  worldOf ∅ (<["k" := wrapperUnreachable]> {["j" := wrapperReady]}).

(** Sessions that already hold the files about to be submitted. *)
Definition worldStored : World :=
  worldOf {["A.sol" := "contract A {}"]} {["c1" := wrapperIncomplete]}.

Definition worldImported : World :=
  worldOf (<["A.sol" := "contract A {}"]> {["metadata.json" := "{}"]})
    {["c1" := wrapperVerified]}.

Definition resubmission : FilesRequest :=
  mkFilesRequest [] None [mkPathBuffer "A.sol" "contract A {}"].

(** Two solc-json inputs submitted at once. *)
Definition solcJsonTwoFiles : SolcJsonRequest :=
  mkSolcJsonRequest
    (mkFilesRequest [] None
       [mkPathBuffer "a.json" "A.sol"; mkPathBuffer "b.json" "B.sol"])
    "0.8.19".

Definition contractRequest : ContractRequest :=
  mkContractRequest [] "0xaaa" "1".

Definition importRequest : LegacyVerifyRequest :=
  mkLegacyVerifyRequest [] "0xaaa" "5" "1".

(** A received contract that moves the wrapper ["c1"] to another target. *)
Definition retarget : SendableContract :=
  mkSendableContract "c1" (Some "0xbbb") (Some "5") None.

(** A received contract that names no wrapper of the sample sessions. *)
Definition strayContract : SendableContract :=
  mkSendableContract "c9" (Some "0xeee") (Some "1") None.

(** The same identifier received a second time, without a target. *)
Definition untarget : SendableContract :=
  mkSendableContract "c1" None None None.

Definition create2Mismatch : Create2VerifyRequest :=
  mkCreate2VerifyRequest [] "0xd" "0x01" None
    [mkPathBuffer "A.sol" "contract A {}"] "0xffff".

Definition sessionCreate2Mismatch : SessionCreate2VerifyRequest :=
  mkSessionCreate2VerifyRequest "0xd" "0x01" None "c1" "0xffff".

Definition sessionCreate2Match : SessionCreate2VerifyRequest :=
  mkSessionCreate2VerifyRequest "0xd" "0x01" None "c1" "0xc2".

(** * Properties *)

Section Properties.
Context `{!IVerificationService, !LibSourcify, !ControllerUtil}.

(** ** The session and the registry *)

Lemma registry_setRegistry cw s : registry (setRegistry cw s) = cw.
Proof. reflexivity. Qed.

Lemma noWrappers_lookup s id w :
  registry s !! id = Some w → noWrappers s = false.
Proof.
  unfold noWrappers, registry, isEmpty.
  destruct (contractWrappers s) as [cw|]; simpl; [| by rewrite lookup_empty].
  intros Hl. apply bool_decide_eq_false. intros ->. by rewrite lookup_empty in Hl.
Qed.

(** ** The selector *)

Lemma isVerifiable_spec w :
  isVerifiable w = true ↔
  missing (contract w) = [] ∧ invalid (contract w) = []
  ∧ address w ≠ None ∧ chainId w ≠ None.
Proof.
  unfold isVerifiable.
  rewrite !andb_true_iff, !bool_decide_eq_true.
  rewrite <- !not_eq_None_Some. tauto.
Qed.

(** The selector reads the contract and the target of a wrapper only. *)
Lemma isVerifiable_ext w1 w2 :
  contract w1 = contract w2 → address w1 = address w2 →
  chainId w1 = chainId w2 → isVerifiable w1 = isVerifiable w2.
Proof. unfold isVerifiable. by intros -> -> ->. Qed.

(** ** The file store *)

Lemma saveFile_count acc pc : (acc.1 ≤ (saveFile acc pc).1)%nat.
Proof. unfold saveFile. case_decide; simpl; lia. Qed.

Lemma foldl_saveFile_count pcs acc : (acc.1 ≤ (foldl saveFile acc pcs).1)%nat.
Proof.
  revert acc. induction pcs as [|pc pcs IH]; intros acc; simpl; [lia |].
  pose proof (saveFile_count acc pc). pose proof (IH (saveFile acc pc)). lia.
Qed.

Lemma foldl_saveFile_unchanged pcs acc :
  (foldl saveFile acc pcs).1 = acc.1 → foldl saveFile acc pcs = acc.
Proof.
  revert acc. induction pcs as [|pc pcs IH]; intros acc Hn; simpl in *; [done |].
  pose proof (foldl_saveFile_count pcs (saveFile acc pc)) as Hge.
  unfold saveFile in *. case_decide; simpl in *; [by apply IH | lia].
Qed.

(** A submission that adds no new file leaves the session as it is. *)
Lemma saveFiles_nothing_new pcs s :
  (saveFiles pcs s).1 = 0 → (saveFiles pcs s).2 = s.
Proof.
  unfold saveFiles. simpl. intros Hn.
  rewrite (foldl_saveFile_unchanged pcs (0, inputFiles s) Hn). by destruct s.
Qed.

(** ** The orchestrator *)

Lemma verdict_frame c o w :
  contract (verdict c o w).1 = contract w
  ∧ address (verdict c o w).1 = address w
  ∧ chainId (verdict c o w).1 = chainId w
  ∧ creatorTxHash (verdict c o w).1 = creatorTxHash w.
Proof. destruct o as [m|e]; simpl; [destruct (match_status m) |]; done. Qed.

(** The orchestrator writes the status, the status message and the storage
    timestamp of a wrapper, nothing else. *)
Lemma verified_frame w :
  contract (verified w) = contract w
  ∧ address (verified w) = address w
  ∧ chainId (verified w) = chainId w
  ∧ creatorTxHash (verified w) = creatorTxHash w.
Proof.
  unfold verified, verifyWrapper.
  destruct (isVerifiable w); [| done].
  destruct (callEngine w); [apply verdict_frame | done].
Qed.

Lemma verified_isVerifiable w : isVerifiable (verified w) = isVerifiable w.
Proof.
  destruct (verified_frame w) as (? & ? & ? & ?). by apply isVerifiable_ext.
Qed.

Lemma verified_not_verifiable w : isVerifiable w = false → verified w = w.
Proof. unfold verified, verifyWrapper. by intros ->. Qed.

Lemma verifyWrapper_stores w : Forall isStoreCall (verifyWrapper w).2.
Proof.
  unfold verifyWrapper. destruct (isVerifiable w); [| by constructor].
  destruct (callEngine w) as [[m|e]|]; simpl; try by constructor.
  destruct (match_status m); simpl; repeat constructor.
Qed.

Lemma registry_verifyOne W id :
  registry (session (verifyOne W id)) = alter verified id (registry (session W)).
Proof.
  unfold verifyOne. apply map_eq. intros j. rewrite lookup_alter.
  destruct (registry (session W) !! id) as [w|] eqn:Hl; simpl.
  - rewrite registry_setRegistry, lookup_insert.
    case_decide; subst; by rewrite ?Hl.
  - case_decide; subst; by rewrite ?Hl.
Qed.

Lemma calls_verifyOne W id :
  calls (verifyOne W id) = (calls W ++ storesOf (registry (session W)) id)%list.
Proof.
  unfold verifyOne, storesOf.
  destruct (registry (session W) !! id); simpl; [done | by rewrite app_nil_r].
Qed.

Lemma registry_verifyEach ids W j :
  NoDup ids →
  registry (session (foldl verifyOne W ids)) !! j
  = if decide (j ∈ ids) then verified <$> registry (session W) !! j
    else registry (session W) !! j.
Proof.
  intros Hnd. revert W.
  induction Hnd as [|a ids Ha Hnd IH]; intros W; cbn [foldl].
  - by rewrite decide_False by set_solver.
  - rewrite IH, registry_verifyOne, lookup_alter.
    destruct (decide (j ∈ ids)) as [Hj|Hj].
    + destruct (decide (a = j)) as [->|Hne]; [contradiction |].
      destruct (decide (j ∈ a :: ids)); [done | set_solver].
    + destruct (decide (a = j)) as [Heq|Hne], (decide (j ∈ a :: ids)) as [Hin|Hin].
      * by subst.
      * subst. exfalso. apply Hin. by left.
      * apply elem_of_cons in Hin as [->|?]; done.
      * done.
Qed.

Lemma dom_verifyEach ids W :
  dom (registry (session (foldl verifyOne W ids))) = dom (registry (session W)).
Proof.
  revert W. induction ids as [|a ids IH]; intros W; simpl; [done |].
  by rewrite IH, registry_verifyOne, dom_alter_L.
Qed.

Lemma calls_verifyEach ids W :
  NoDup ids →
  calls (foldl verifyOne W ids)
  = (calls W ++ mjoin (storesOf (registry (session W)) <$> ids))%list.
Proof.
  intros Hnd. revert W. induction Hnd as [|a ids Ha Hnd IH]; intros W; simpl.
  - by rewrite app_nil_r.
  - rewrite IH, calls_verifyOne, <- app_assoc. do 3 f_equal.
    apply list_fmap_ext. intros i j Hj.
    unfold storesOf. rewrite registry_verifyOne, lookup_alter_ne; [done |].
    intros ->. apply Ha. by eapply list_elem_of_lookup_2.
Qed.

Lemma storesOf_stores cw ids :
  Forall isStoreCall (mjoin (storesOf cw <$> ids)).
Proof.
  apply Forall_join, Forall_fmap, Forall_forall. intros id _. simpl.
  unfold storesOf. destruct (cw !! id); [apply verifyWrapper_stores | constructor].
Qed.

Lemma verifyContractsInSession_run batch W :
  verifyContractsInSession batch W
  = (Returned tt,
     foldl verifyOne
       (mkWorld (session W) (calls W ++ [CallVerifyContractsInSession batch]))
       (elements batch)).
Proof. reflexivity. Qed.

Lemma verifyContractsInSession_registry batch W j :
  registry (session (verifyContractsInSession batch W).2) !! j
  = if decide (j ∈ batch) then verified <$> registry (session W) !! j
    else registry (session W) !! j.
Proof.
  rewrite verifyContractsInSession_run. simpl.
  rewrite registry_verifyEach by apply NoDup_elements. simpl.
  destruct (decide (j ∈ elements batch)) as [Hj|Hj], (decide (j ∈ batch)) as [Hb|Hb];
    try done; apply elem_of_elements in Hj || (exfalso; apply Hj, elem_of_elements);
    done.
Qed.

Lemma verifyContractsInSession_dom batch W :
  dom (registry (session (verifyContractsInSession batch W).2))
  = dom (registry (session W)).
Proof. rewrite verifyContractsInSession_run. simpl. by rewrite dom_verifyEach. Qed.

Lemma verifyContractsInSession_calls batch W :
  calls (verifyContractsInSession batch W).2
  = (calls W ++ CallVerifyContractsInSession batch
       :: mjoin (storesOf (registry (session W)) <$> elements batch))%list.
Proof.
  rewrite verifyContractsInSession_run. simpl.
  rewrite calls_verifyEach by apply NoDup_elements. simpl.
  by rewrite <- app_assoc.
Qed.

(** ** The loop of the session verify endpoint *)

Lemma assignReceived_fields rc w :
  contract (assignReceived rc w) = contract w
  ∧ address (assignReceived rc w) = sc_address rc
  ∧ chainId (assignReceived rc w) = sc_chainId rc
  ∧ creatorTxHash (assignReceived rc w) = sc_creatorTxHash rc
  ∧ status (assignReceived rc w) = status w
  ∧ statusMessage (assignReceived rc w) = statusMessage w
  ∧ storageTimestamp (assignReceived rc w) = storageTimestamp w.
Proof. done. Qed.

Lemma assignNamed_frame id rcs w :
  contract (foldl (assignNamed id) w rcs) = contract w
  ∧ status (foldl (assignNamed id) w rcs) = status w
  ∧ statusMessage (foldl (assignNamed id) w rcs) = statusMessage w
  ∧ storageTimestamp (foldl (assignNamed id) w rcs) = storageTimestamp w.
Proof.
  revert w. induction rcs as [|rc rcs IH]; intros w; simpl; [done |].
  destruct (IH (assignNamed id w rc)) as (-> & -> & -> & ->).
  unfold assignNamed. by case_decide.
Qed.

Lemma assignNamed_unnamed id rcs w :
  id ∉ verificationId <$> rcs → foldl (assignNamed id) w rcs = w.
Proof.
  revert w. induction rcs as [|rc rcs IH]; intros w Hid; simpl; [done |].
  rewrite fmap_cons, not_elem_of_cons in Hid. destruct Hid as [Hne Hid].
  rewrite IH by done. unfold assignNamed. by rewrite decide_False.
Qed.

Lemma assignNamed_last pre rc post w :
  verificationId rc ∉ verificationId <$> post →
  foldl (assignNamed (verificationId rc)) w (pre ++ rc :: post)
  = assignReceived rc (foldl (assignNamed (verificationId rc)) w pre).
Proof.
  intros Hpost. rewrite foldl_app. simpl.
  rewrite assignNamed_unnamed by done.
  unfold assignNamed at 1. by rewrite decide_True.
Qed.

Lemma assignNamed_eq rc w : assignNamed (verificationId rc) w rc = assignReceived rc w.
Proof. unfold assignNamed. by rewrite decide_True. Qed.

Lemma assignNamed_ne id rc w : verificationId rc ≠ id → assignNamed id w rc = w.
Proof. intros. unfold assignNamed. by rewrite decide_False. Qed.

Lemma receiveContract_lookup rcs st id :
  (foldl receiveContract st rcs).1 !! id
  = (λ w, foldl (assignNamed id) w rcs) <$> st.1 !! id.
Proof.
  revert st. induction rcs as [|rc rcs IH]; intros st; simpl.
  - by destruct (st.1 !! id).
  - rewrite IH. unfold receiveContract.
    destruct (decide (verificationId rc = id)) as [<-|Hne].
    + destruct (st.1 !! verificationId rc) as [w|] eqn:Hl; simpl.
      * by rewrite lookup_insert_eq, assignNamed_eq.
      * by rewrite Hl.
    + destruct (st.1 !! verificationId rc) as [w|] eqn:Hl; simpl.
      * rewrite lookup_insert_ne by done.
        destruct (st.1 !! id); simpl; [by rewrite assignNamed_ne | done].
      * destruct (st.1 !! id); simpl; [by rewrite assignNamed_ne | done].
Qed.

Lemma receiveContract_dom rcs st :
  dom (foldl receiveContract st rcs).1 = dom st.1.
Proof.
  apply set_eq. intros id. rewrite !elem_of_dom, receiveContract_lookup.
  by rewrite fmap_is_Some.
Qed.

(** A wrapper is in the batch only if a received contract named it and the
    wrapper, with the received target assigned, satisfied the selector. *)
Lemma receiveContract_batch rcs st id :
  id ∈ (foldl receiveContract st rcs).2 →
  id ∈ st.2 ∨
  ∃ rc w, rc ∈ rcs ∧ verificationId rc = id ∧ st.1 !! id = Some w
          ∧ isVerifiable (assignReceived rc w) = true.
Proof.
  revert st. induction rcs as [|rc rcs IH]; intros st Hid; simpl in *; [by left |].
  apply IH in Hid as [Hid | (rc' & w1 & Hin & Hv & Hl & Hok)].
  - unfold receiveContract in Hid.
    destruct (st.1 !! verificationId rc) as [w|] eqn:Hl; simpl in Hid; [| by left].
    destruct (isVerifiable (assignReceived rc w)) eqn:Hok; [| by left].
    apply elem_of_union in Hid as [Hid | Hid]; [| by left].
    apply elem_of_singleton in Hid. subst id.
    right. exists rc, w. split_and!; [by left | done..].
  - right. unfold receiveContract in Hl.
    destruct (st.1 !! verificationId rc) as [w|] eqn:Hl0; simpl in Hl;
      [| exists rc', w1; split_and!; [by right | done..]].
    rewrite lookup_insert in Hl. case_decide as Hd.
    + subst id. inversion Hl; subst w1. rewrite Hd in *.
      exists rc', w. split_and!; [by right | done..].
    + exists rc', w1. split_and!; [by right | done..].
Qed.

(** ** The loop of the session import *)

Lemma importTarget_lookup_other addr chain ids st id :
  id ∉ ids → (foldl (importTarget addr chain) st ids).1 !! id = st.1 !! id.
Proof.
  revert st. induction ids as [|a ids IH]; intros st Hid; simpl; [done |].
  apply not_elem_of_cons in Hid as [Hne Hid]. rewrite IH by done.
  unfold importTarget. destruct (st.1 !! a); simpl; [| done].
  by rewrite lookup_insert_ne.
Qed.

Lemma importTarget_dom addr chain ids st :
  dom (foldl (importTarget addr chain) st ids).1 = dom st.1.
Proof.
  revert st. induction ids as [|a ids IH]; intros st; simpl; [done |].
  rewrite IH. unfold importTarget.
  destruct (st.1 !! a) as [w|] eqn:Hl; simpl; [| done].
  rewrite dom_insert_L. apply subseteq_union_1_L, singleton_subseteq_l.
  by eapply elem_of_dom_2.
Qed.

(** Each key is visited once, so a wrapper put in the batch still satisfies
    the selector when the loop ends. *)
Lemma importTarget_batch addr chain ids st id :
  NoDup ids →
  id ∈ (foldl (importTarget addr chain) st ids).2 →
  id ∈ st.2 ∨
  ∃ w, (foldl (importTarget addr chain) st ids).1 !! id = Some w
       ∧ isVerifiable w = true.
Proof.
  intros Hnd. revert st.
  induction Hnd as [|a ids Ha Hnd IH]; intros st Hid; simpl in *; [by left |].
  apply IH in Hid as [Hid | Hid]; [| by right].
  unfold importTarget in Hid.
  destruct (st.1 !! a) as [w|] eqn:Hl; simpl in Hid; [| by left].
  destruct (isVerifiable (adoptTarget addr chain w)) eqn:Hok; [| by left].
  apply elem_of_union in Hid as [Hid | Hid]; [| by left].
  apply elem_of_singleton in Hid. subst id. right.
  exists (adoptTarget addr chain w). split; [| done].
  rewrite importTarget_lookup_other by done.
  unfold importTarget. rewrite Hl. simpl. by rewrite lookup_insert_eq.
Qed.

(** ** Running a handler *)

#[local] Arguments verifyContractsInSession : simpl never.
#[local] Arguments saveFiles : simpl never.
#[local] Arguments getSessionJSON : simpl never.
#[local] Arguments registry : simpl never.
#[local] Arguments setRegistry : simpl never.
#[local] Arguments importPathContents : simpl never.

Ltac run :=
  repeat (unfold mbind, handler_bind, mret, handler_ret, throw, await,
            getSession, putSession, logCall, storeMatch, storeMatchUndefined,
            sendSession,
            validateRequest, checkContractsInSession; cbn).

Lemma verifyContractsInSession_returns batch W :
  verifyContractsInSession batch W
  = (Returned tt, (verifyContractsInSession batch W).2).
Proof. reflexivity. Qed.

Lemma verifyContractsInSessionEndpoint_empty rcs W :
  noWrappers (session W) = true →
  verifyContractsInSessionEndpoint rcs W
  = (Thrown (BadRequestError "There are currently no pending contracts."), W).
Proof. intros Hnw. unfold verifyContractsInSessionEndpoint. run. by rewrite Hnw. Qed.

Lemma verifyContractsInSessionEndpoint_run rcs W :
  noWrappers (session W) = false →
  let st := foldl receiveContract (registry (session W), ∅) rcs in
  let W1 := (verifyContractsInSession st.2
               (mkWorld (setRegistry st.1 (session W)) (calls W))).2 in
  verifyContractsInSessionEndpoint rcs W
  = (Returned (SessionJSON (getSessionJSON (session W1))), W1).
Proof. intros Hnw. unfold verifyContractsInSessionEndpoint. run. by rewrite Hnw. Qed.

Lemma newCalls_eq W W' l : calls W' = (calls W ++ l)%list → newCalls W W' = l.
Proof. unfold newCalls. intros ->. by rewrite drop_app_length. Qed.

Lemma newCalls_refl W : newCalls W W = [].
Proof. apply newCalls_eq. by rewrite app_nil_r. Qed.

(** The only call to the orchestrator that a run of it logs is its own. *)
Lemma orchestrator_newCalls W0 W1 cs batch b :
  calls W1 = (calls W0 ++ cs)%list →
  CallVerifyContractsInSession b
    ∈ newCalls W0 (verifyContractsInSession batch W1).2 →
  CallVerifyContractsInSession b ∈ cs ∨ b = batch.
Proof.
  intros Hcs Hin.
  erewrite newCalls_eq in Hin;
    [| by rewrite verifyContractsInSession_calls, Hcs, <- app_assoc].
  apply elem_of_app in Hin as [Hin | Hin]; [by left |].
  apply elem_of_cons in Hin as [Hin | Hin]; [right; congruence |].
  pose proof (storesOf_stores (registry (session W1)) (elements batch)) as Hst.
  rewrite Forall_forall in Hst. by apply Hst in Hin.
Qed.

Lemma map_to_list_keys_NoDup {A} (m : gmap string A) : NoDup (map_to_list m).*1.
Proof. apply NoDup_fst_map_to_list. Qed.

(** C2: when a file submission adds no new file ([saveFiles] returns 0),
    neither the grouping step nor the orchestrator is called and the session,
    with its wrapper registry, is left as it was; the response is the
    snapshot of the unchanged session.  Both file endpoints. *)
Theorem no_new_files_skips_grouping_and_verification :
  (∀ req W inputFiles,
     files_validation req = [] →
     requestedFiles req = Returned (Some inputFiles) →
     (saveFiles (toPathContent <$> inputFiles) (session W)).1 = 0 →
     let out := addInputFilesEndpoint req W in
     filter isGroupingOrVerification (newCalls W out.2) = []
     ∧ contractWrappers (session out.2) = contractWrappers (session W)
     ∧ out = (Returned (SessionJSON (getSessionJSON (session W))), W))
  ∧ (∀ req W bytecode cid text,
       contract_validation req = [] →
       getBytecode (contract_chainId req) (contract_address req)
         = Returned bytecode →
       bytecodeDecode bytecode = Returned (Some cid) → cid ≠ "" →
       performFetch (getIpfsGateway ++ cid) = Returned (Some text) →
       text ≠ "" →
       (saveFiles [mkPathContent metadataFileName (stringToBase64 text)]
          (session W)).1 = 0 →
       let out := addInputContractEndpoint req W in
       filter isGroupingOrVerification (newCalls W out.2) = []
       ∧ contractWrappers (session out.2) = contractWrappers (session W)
       ∧ out = (Returned (SessionJSON (getSessionJSON (session W))), W)).
Proof.
  split.
  - intros req W inputFiles Hval Hfiles Hn out.
    assert (Hout : out = (Returned (SessionJSON (getSessionJSON (session W))), W)).
    { subst out. unfold addInputFilesEndpoint. run.
      rewrite Hval, Hfiles. cbn.
      rewrite decide_True by done. cbn.
      rewrite saveFiles_nothing_new by done. by destruct W. }
    rewrite Hout. cbn. by rewrite newCalls_refl.
  - intros req W bytecode cid text Hval Hbc Hcid Hne Hfetch Hte Hn out.
    assert (Hout : out = (Returned (SessionJSON (getSessionJSON (session W))), W)).
    { subst out. unfold addInputContractEndpoint. run.
      rewrite Hval, Hbc. cbn. rewrite Hcid. cbn.
      assert (String.eqb cid "" = false) as -> by by apply String.eqb_neq.
      cbn. rewrite Hfetch. cbn.
      assert (String.eqb text "" = false) as -> by by apply String.eqb_neq.
      cbn. rewrite decide_True by done. cbn.
      rewrite saveFiles_nothing_new by done. by destruct W. }
    rewrite Hout. cbn. by rewrite newCalls_refl.
Qed.

(** C6: in the session import, when saving the synthesized sources and
    metadata adds no new file, the handler throws the [BadRequestError]
    before any grouping or verification: no call is made, the session is
    left as it was and no response is sent. *)
Theorem import_without_new_files_is_bad_request :
  ∀ req W r metadata,
    legacy_validation req = [] →
    processRequestFromEtherscan (body_chainId req) (body_address req)
      = Returned r →
    getMetadataFromCompiler (compilerVersion r) (solcJsonInput r) (contractName r)
      = Returned metadata →
    (saveFiles (importPathContents (solcJsonInput r) metadata) (session W)).1 = 0 →
    let out := sessionVerifyFromEtherscan req W in
    out.1 = Thrown (BadRequestError "The contract didn't add any new file")
    ∧ newCalls W out.2 = []
    ∧ out.2 = W.
Proof.
  intros req W r md Hval Hr Hmd Hn out.
  assert (Hout : out = (Thrown (BadRequestError
                                  "The contract didn't add any new file"), W)).
  { subst out. unfold sessionVerifyFromEtherscan. run.
    rewrite Hval, Hr. cbn. rewrite Hmd. cbn.
    rewrite decide_True by done. cbn.
    rewrite saveFiles_nothing_new by done. by destruct W. }
  rewrite Hout. cbn. by rewrite newCalls_refl.
Qed.

(** C9: the import without a session calls [storeMatch] for every match the
    engine returns, whatever its status, a well-formed non-match included;
    no test of [match.status] guards the call, unlike in the CREATE2
    handlers. *)
Theorem verifyFromEtherscan_stores_every_match :
  ∀ req W r metadata match_,
    legacy_validation req = [] →
    processRequestFromEtherscan (body_chain req) (body_address req)
      = Returned r →
    getMetadataFromCompiler (compilerVersion r) (solcJsonInput r) (contractName r)
      = Returned metadata →
    let checkedContract :=
      newCheckedContract metadata
        (getMappedSourcesFromJsonInput (solcJsonInput r)) [] [] in
    verifyDeployed checkedContract (body_chain req) (body_address req) None
      = Returned match_ →
    let out := verifyFromEtherscan req W in
    out.1 = Returned (MatchResult [match_])
    ∧ newCalls W out.2 = [CallStoreMatch checkedContract match_]
    ∧ session out.2 = session W.
Proof.
  intros req W r md m Hval Hr Hmd c Hm out.
  subst out c. unfold verifyFromEtherscan. run.
  rewrite Hval, Hr. cbn. rewrite Hmd. cbn. rewrite Hm. cbn.
  split_and!; [done | | done].
  by apply newCalls_eq.
Qed.

(** C4: in the CREATE2 pathway a match whose status is not a success is
    never stored: the handler without a session, having answered with such a
    match, and the session handler, having received one, leave the log of
    calls as it was; and so does a handler that throws. *)
Theorem create2_mismatch_is_not_stored :
  (∀ req W match_,
     (verifyCreate2 req W).1 = Returned (MatchResult [match_]) →
     truthyStatus (match_status match_) = false →
     newCalls W (verifyCreate2 req W).2 = []
     ∧ persisted (verifyCreate2 req W).2 = persisted W)
  ∧ (∀ req W e,
       (verifyCreate2 req W).1 = Thrown e → (verifyCreate2 req W).2 = W)
  ∧ (∀ req W contractWrapper match_,
       registry (session W) !! s_verificationId req = Some contractWrapper →
       libVerifyCreate2 (checkedContractOf contractWrapper)
         (s_deployerAddress req) (s_salt req) (s_create2Address req)
         (s_abiEncodedConstructorArguments req) = Returned match_ →
       truthyStatus (match_status match_) = false →
       newCalls W (sessionVerifyCreate2 req W).2 = []
       ∧ persisted (sessionVerifyCreate2 req W).2 = persisted W)
  ∧ (∀ req W e,
       (sessionVerifyCreate2 req W).1 = Thrown e →
       (sessionVerifyCreate2 req W).2 = W).
Proof.
  split_and!.
  - intros req W m. unfold verifyCreate2, checkFilesOrBadRequest. run.
    destruct (create2_validation req); cbn; [| done].
    destruct (extractFilesFromJSON _); cbn; [| done].
    destruct (checkFiles _) as [cs|e]; cbn; [| by destruct (isError e)].
    destruct (stringifyInvalidAndMissing <$> _); cbn; [| done].
    destruct (head cs) as [c|]; cbn.
    + destruct (libVerifyCreate2 _ _ _ _ _) as [m'|e]; cbn; [| done].
      destruct (truthyStatus (match_status m')) eqn:Hst; cbn.
      * intros [= ->]. congruence.
      * intros _ _. by rewrite newCalls_refl.
    + destruct (libVerifyCreate2Undefined _ _ _ _) as [m'|e]; cbn; [| done].
      destruct (truthyStatus (match_status m')) eqn:Hst; cbn.
      * intros [= ->]. congruence.
      * intros _ _. by rewrite newCalls_refl.
  - intros req W e. unfold verifyCreate2, checkFilesOrBadRequest. run.
    destruct (create2_validation req); cbn; [| done].
    destruct (extractFilesFromJSON _); cbn; [| done].
    destruct (checkFiles _) as [cs|e']; cbn; [| by destruct (isError e')].
    destruct (stringifyInvalidAndMissing <$> _); cbn; [| done].
    destruct (head cs) as [c|]; cbn.
    + destruct (libVerifyCreate2 _ _ _ _ _) as [m'|e']; cbn; [| done].
      by destruct (truthyStatus (match_status m')).
    + destruct (libVerifyCreate2Undefined _ _ _ _) as [m'|e']; cbn; [| done].
      by destruct (truthyStatus (match_status m')).
  - intros req W w m Hl Hm Hst. unfold sessionVerifyCreate2. run.
    rewrite (noWrappers_lookup _ _ _ Hl), Hl. cbn. rewrite Hm. cbn.
    rewrite Hst. cbn. split; [by apply newCalls_eq; rewrite app_nil_r | done].
  - intros req W e. unfold sessionVerifyCreate2. run.
    destruct (noWrappers (session W)); cbn; [done |].
    destruct (registry (session W) !! _) as [w|]; cbn; [| done].
    destruct (libVerifyCreate2 _ _ _ _ _) as [m'|e']; cbn; [| done].
    by destruct (truthyStatus (match_status m')).
Qed.

(** C10: whenever the session CREATE2 verify operation receives a match,
    whatever its status, the named wrapper's chainId becomes the string "0"
    and its address the address of the match; what the user had set before
    is discarded. *)
Theorem sessionVerifyCreate2_overwrites_target :
  ∀ req W contractWrapper match_,
    registry (session W) !! s_verificationId req = Some contractWrapper →
    libVerifyCreate2 (checkedContractOf contractWrapper)
      (s_deployerAddress req) (s_salt req) (s_create2Address req)
      (s_abiEncodedConstructorArguments req) = Returned match_ →
    ∃ w', registry (session (sessionVerifyCreate2 req W).2)
            !! s_verificationId req = Some w'
          ∧ chainId w' = Some "0"
          ∧ address w' = Some (match_address match_).
Proof.
  intros req W w m Hl Hm. unfold sessionVerifyCreate2. run.
  rewrite (noWrappers_lookup _ _ _ Hl), Hl. cbn. rewrite Hm. cbn.
  exists (assignCreate2Match m w).
  split; [| done].
  destruct (truthyStatus (match_status m)); cbn;
    by rewrite registry_setRegistry, lookup_insert_eq.
Qed.

(** C7: the session CREATE2 precompile operation writes nothing but the
    creationBytecode of the named wrapper's contract, which becomes the
    bytecode returned by recompiling the contract rebuilt from the wrapper's
    metadata, sources, missing and invalid lists; when the recompilation
    throws nothing is written at all.  Every wrapper keeps its status,
    statusMessage, address, chainId, creatorTxHash and storageTimestamp and
    the metadata, sources, missing and invalid lists of its contract; every
    other wrapper is left as it was; no wrapper is added or removed and no
    call is logged. *)
Theorem sessionPrecompileContract_frame :
  ∀ verificationId W,
    let W' := (sessionPrecompileContract verificationId W).2 in
    calls W' = calls W
    ∧ dom (registry (session W')) = dom (registry (session W))
    ∧ (∀ id w, registry (session W) !! id = Some w →
         ∃ w', registry (session W') !! id = Some w'
               ∧ status w' = status w
               ∧ statusMessage w' = statusMessage w
               ∧ address w' = address w
               ∧ chainId w' = chainId w
               ∧ creatorTxHash w' = creatorTxHash w
               ∧ storageTimestamp w' = storageTimestamp w
               ∧ metadata (contract w') = metadata (contract w)
               ∧ solidity (contract w') = solidity (contract w)
               ∧ missing (contract w') = missing (contract w)
               ∧ invalid (contract w') = invalid (contract w)
               ∧ (id ≠ verificationId → w' = w))
    ∧ (∀ w bytecode,
         registry (session W) !! verificationId = Some w →
         recompile (checkedContractOf w) = Returned bytecode →
         registry (session W') !! verificationId
           = Some (setCreationBytecode (Some bytecode) w))
    ∧ (∀ w bytecode,
         registry (session W) !! verificationId = Some w →
         recompile
           (mkCheckedContract (metadata (contract w)) (solidity (contract w))
              (missing (contract w)) (invalid (contract w)) None)
           = Returned bytecode →
         ∃ w', registry (session W') !! verificationId = Some w'
               ∧ creationBytecode (contract w') = Some bytecode)
    ∧ (∀ w e,
         registry (session W) !! verificationId = Some w →
         recompile
           (mkCheckedContract (metadata (contract w)) (solidity (contract w))
              (missing (contract w)) (invalid (contract w)) None)
           = Thrown e →
         W' = W).
Proof.
  intros vid W. unfold sessionPrecompileContract. run.
  destruct (noWrappers (session W)) eqn:Hnw; cbn.
  { split_and!; [done | done | | | | done].
    - intros id w Hl. exists w. by split_and!.
    - intros w bc Hl. by rewrite (noWrappers_lookup _ _ _ Hl) in Hnw.
    - intros w bc Hl. by rewrite (noWrappers_lookup _ _ _ Hl) in Hnw. }
  destruct (registry (session W) !! vid) as [w0|] eqn:Hl0; cbn.
  2: { split_and!; [done | done | | | | done].
       - intros id w Hl. exists w. by split_and!.
       - intros w bc Hl. congruence.
       - intros w bc Hl. congruence. }
  change (checkedContractOf w0)
    with (mkCheckedContract (metadata (contract w0)) (solidity (contract w0))
            (missing (contract w0)) (invalid (contract w0)) None).
  destruct (recompile _) as [bc|e] eqn:Hrc; cbn.
  2: { split_and!; [done | done | | | | done].
       - intros id w Hl. exists w. by split_and!.
       - intros w bc [= <-]. unfold checkedContractOf, newCheckedContract.
         congruence.
       - intros w bc [= <-]. congruence. }
  rewrite registry_setRegistry. split_and!.
  - done.
  - rewrite dom_insert_L. apply subseteq_union_1_L, singleton_subseteq_l.
    by eapply elem_of_dom_2.
  - intros id w Hl. destruct (decide (id = vid)) as [->|Hne].
    + rewrite lookup_insert_eq. rewrite Hl0 in Hl. inversion Hl; subst w0.
      eexists. split; [done |]. by split_and!.
    + rewrite lookup_insert_ne by done. exists w. by split_and!.
  - intros w bc' [= <-] Hbc. unfold checkedContractOf, newCheckedContract in Hbc.
    rewrite Hrc in Hbc. inversion Hbc; subst. by rewrite lookup_insert_eq.
  - intros w bc' [= <-] Hbc. rewrite Hrc in Hbc. inversion Hbc; subst.
    rewrite lookup_insert_eq. eexists. by split.
  - intros w e [= <-] Hbc. rewrite Hrc in Hbc. by inversion Hbc.
Qed.

(** ** The session verify endpoint *)

(** The wrapper the endpoint leaves at [id]: the received targets assigned
    in turn, then verified if the wrapper is in the batch. *)
Lemma verifyContractsInSessionEndpoint_lookup rcs W id :
  noWrappers (session W) = false →
  let st := foldl receiveContract (registry (session W), ∅) rcs in
  registry (session (verifyContractsInSessionEndpoint rcs W).2) !! id
  = (λ w, let w1 := foldl (assignNamed id) w rcs in
          if decide (id ∈ st.2) then verified w1 else w1)
      <$> registry (session W) !! id.
Proof.
  intros Hnw st. rewrite verifyContractsInSessionEndpoint_run by done.
  cbv zeta. cbn [snd]. rewrite verifyContractsInSession_registry.
  cbn [session]. rewrite registry_setRegistry, receiveContract_lookup.
  fold st. cbn [fst].
  destruct (registry (session W) !! id) as [w|]; cbn; by case_decide.
Qed.

(** When the received contracts name distinct wrappers, every wrapper of the
    batch satisfies the selector in the session the endpoint leaves.  (A
    wrapper named twice is shared by the batch and the registry: the second
    assignment reaches the wrapper that the first one put in the batch.) *)
Lemma session_verify_batch_verifiable_when_distinct rcs W id :
  noWrappers (session W) = false →
  NoDup (verificationId <$> rcs) →
  id ∈ (foldl receiveContract (registry (session W), ∅) rcs).2 →
  ∃ w', registry (session (verifyContractsInSessionEndpoint rcs W).2) !! id
          = Some w'
        ∧ isVerifiable w' = true.
Proof.
  intros Hnw Hnd Hid.
  rewrite verifyContractsInSessionEndpoint_lookup by done.
  cbv zeta. pose proof Hid as Hbatch.
  apply receiveContract_batch in Hid as [Hid | (rc & w & Hin & <- & Hl & Hok)];
    [by apply not_elem_of_empty in Hid |].
  cbn [fst] in Hl. rewrite Hl. cbn.
  rewrite decide_True by done. eexists. split; [done |].
  rewrite verified_isVerifiable.
  apply list_elem_of_split in Hin as (pre & post & ->).
  rewrite fmap_app, fmap_cons in Hnd.
  apply NoDup_app in Hnd as (_ & _ & Hnd). apply NoDup_cons in Hnd as [Hpost _].
  rewrite assignNamed_last by done.
  rewrite <- Hok. apply isVerifiable_ext; [| done..].
  cbn. by destruct (assignNamed_frame (verificationId rc) pre w) as (-> & _).
Qed.

Lemma getSessionJSON_contracts s v :
  v ∈ contracts (getSessionJSON s)
  ↔ ∃ id w, registry s !! id = Some w ∧ v = wrapperView id w.
Proof.
  unfold getSessionJSON. cbn. rewrite list_elem_of_fmap. split.
  - intros ([id w] & -> & Hin). apply elem_of_map_to_list in Hin. eauto.
  - intros (id & w & Hl & ->). exists (id, w). split; [done |].
    by apply elem_of_map_to_list.
Qed.

(** C5, as the code has it: every response the session verify endpoint sends
    is the snapshot of the whole registry, whose views are exactly the views
    of its wrappers, and no wrapper is added or removed.  A wrapper is put in
    the batch only if it satisfies the selector once the received target is
    assigned to it.  A wrapper that fails the selector is not verified: it
    keeps the status, status message, storage timestamp and contract it had
    before the request.  A wrapper the request does not name is left as it
    was; a wrapper it names carries the address, chainId and creatorTxHash
    received last for it. *)
Theorem session_verify_returns_whole_registry :
  ∀ receivedContracts W,
    noWrappers (session W) = false →
    let out := verifyContractsInSessionEndpoint receivedContracts W in
    out.1 = Returned (SessionJSON (getSessionJSON (session out.2)))
    ∧ dom (registry (session out.2)) = dom (registry (session W))
    ∧ (∀ v, v ∈ contracts (getSessionJSON (session out.2))
            ↔ ∃ id w', registry (session out.2) !! id = Some w'
                       ∧ v = wrapperView id w')
    ∧ (∃ batch stores,
         newCalls W out.2 = CallVerifyContractsInSession batch :: stores
         ∧ Forall isStoreCall stores
         ∧ ∀ id, id ∈ batch →
             ∃ rc w, rc ∈ receivedContracts ∧ verificationId rc = id
                     ∧ registry (session W) !! id = Some w
                     ∧ isVerifiable (assignReceived rc w) = true)
    ∧ (∀ id w, registry (session W) !! id = Some w →
         ∃ w', registry (session out.2) !! id = Some w'
           ∧ (id ∉ verificationId <$> receivedContracts → w' = w)
           ∧ (∀ pre rc post,
                receivedContracts = (pre ++ rc :: post)%list →
                verificationId rc = id →
                id ∉ verificationId <$> post →
                address w' = sc_address rc ∧ chainId w' = sc_chainId rc
                ∧ creatorTxHash w' = sc_creatorTxHash rc)
           ∧ (isVerifiable w' = false →
                status w' = status w
                ∧ statusMessage w' = statusMessage w
                ∧ storageTimestamp w' = storageTimestamp w
                ∧ contract w' = contract w)).
Proof.
  intros rcs W Hnw out. split_and!.
  - subst out. by rewrite verifyContractsInSessionEndpoint_run.
  - subst out. rewrite verifyContractsInSessionEndpoint_run by done.
    cbv zeta. cbn [snd]. rewrite verifyContractsInSession_dom. cbn [session].
    by rewrite registry_setRegistry, receiveContract_dom.
  - intros v. apply getSessionJSON_contracts.
  - subst out. rewrite verifyContractsInSessionEndpoint_run by done.
    cbv zeta. cbn [snd]. eexists _, _. split_and!.
    + apply newCalls_eq. by rewrite verifyContractsInSession_calls.
    + apply storesOf_stores.
    + intros id Hid.
      apply receiveContract_batch in Hid as [Hid | Hid]; [| done].
      by apply not_elem_of_empty in Hid.
  - intros id w Hl. subst out.
    rewrite verifyContractsInSessionEndpoint_lookup by done.
    rewrite Hl. cbn. eexists. split; [done |].
    set (w1 := foldl (assignNamed id) w rcs).
    set (st := foldl receiveContract (registry (session W), ∅) rcs).
    split_and!.
    + intros Hun. rewrite decide_False.
      * subst w1. by apply assignNamed_unnamed.
      * intros Hin. apply receiveContract_batch in Hin
          as [Hin | (rc & _ & Hrc & <- & _)];
          [by apply not_elem_of_empty in Hin |].
        apply Hun, list_elem_of_fmap. eauto.
    + intros pre rc post -> <- Hpost.
      assert (Hw1 : w1 = assignReceived rc
                           (foldl (assignNamed (verificationId rc)) w pre))
        by by apply assignNamed_last.
      destruct (verified_frame w1) as (_ & Ha & Hc & Ht).
      case_decide; rewrite ?Ha, ?Hc, ?Ht; by rewrite Hw1.
    + intros Hnv.
      assert (Hw1 : isVerifiable w1 = false).
      { case_decide; [by rewrite verified_isVerifiable in Hnv | done]. }
      assert ((if decide (id ∈ st.2) then verified w1 else w1) = w1) as ->.
      { case_decide; [by apply verified_not_verifiable | done]. }
      destruct (assignNamed_frame id rcs w) as (Hc & Hs & Hm & Ht).
      by split_and!.
Qed.

Lemma verifyWrapper_verdict w o :
  isVerifiable w = true → callEngine w = Some o →
  verifyWrapper w = verdict (contract w) o w.
Proof. unfold verifyWrapper. by intros -> ->. Qed.

(** C8: when the engine call of one wrapper [k] of a batch fails, the
    orchestrator still returns; wrapper [k] gets status [error] with the
    failure's message; every other verifiable wrapper of the batch gets the
    verdict of its own engine call (which is not [error] when its call
    returned, and whose match is stored when it is a success); no wrapper is
    added to or removed from the registry. *)
Theorem batch_failure_is_isolated :
  ∀ batch W k wk e,
    k ∈ batch →
    registry (session W) !! k = Some wk →
    isVerifiable wk = true →
    callEngine wk = Some (Thrown e) →
    let out := verifyContractsInSession batch W in
    out.1 = Returned tt
    ∧ dom (registry (session out.2)) = dom (registry (session W))
    ∧ (∃ wk', registry (session out.2) !! k = Some wk'
              ∧ status wk' = error
              ∧ statusMessage wk' = Some (message e))
    ∧ (∀ j wj o,
         j ∈ batch → j ≠ k →
         registry (session W) !! j = Some wj →
         isVerifiable wj = true →
         callEngine wj = Some o →
         registry (session out.2) !! j = Some (verdict (contract wj) o wj).1
         ∧ (∀ c, c ∈ (verdict (contract wj) o wj).2 → c ∈ newCalls W out.2)
         ∧ (∀ m, o = Returned m →
              status (verdict (contract wj) o wj).1 ≠ error
              ∧ (truthyStatus (match_status m) = true →
                   CallStoreMatch (contract wj) m ∈ newCalls W out.2))).
Proof.
  intros batch W k wk e Hk Hlk Hvk Hek out.
  assert (Hstored : ∀ j wj o c,
            j ∈ batch → registry (session W) !! j = Some wj →
            isVerifiable wj = true → callEngine wj = Some o →
            c ∈ (verdict (contract wj) o wj).2 → c ∈ newCalls W out.2).
  { intros j wj o c Hj Hlj Hvj Hej Hc. subst out.
    erewrite newCalls_eq by apply verifyContractsInSession_calls.
    right. apply list_elem_of_join.
    exists (storesOf (registry (session W)) j). split.
    - unfold storesOf. by rewrite Hlj, (verifyWrapper_verdict _ _ Hvj Hej).
    - apply list_elem_of_fmap. exists j. split; [done |].
      by apply elem_of_elements. }
  subst out. split_and!.
  - done.
  - apply verifyContractsInSession_dom.
  - exists (verified wk).
    rewrite verifyContractsInSession_registry, decide_True, Hlk by done.
    split; [done |].
    unfold verified. by rewrite (verifyWrapper_verdict _ _ Hvk Hek).
  - intros j wj o Hj Hne Hlj Hvj Hej. split_and!.
    + rewrite verifyContractsInSession_registry, decide_True, Hlj by done.
      cbn. unfold verified. by rewrite (verifyWrapper_verdict _ _ Hvj Hej).
    + intros c Hc. by eapply Hstored.
    + intros m ->. split.
      * cbn. by destruct (match_status m).
      * intros Hst. eapply Hstored; [done..|].
        cbn. destruct (match_status m); [by left | by left | done].
Qed.

(** * Further properties of the handlers *)

(** ** The loop of the session verify endpoint, continued *)

Lemma receiveContract_step_dom st rc : dom (receiveContract st rc).1 = dom st.1.
Proof. apply (receiveContract_dom [rc]). Qed.

Lemma receiveContract_batch_mono rcs st : st.2 ⊆ (foldl receiveContract st rcs).2.
Proof.
  revert st. induction rcs as [|rc rcs IH]; intros st; simpl; [done |].
  etrans; [| apply IH]. unfold receiveContract.
  destruct (st.1 !! verificationId rc); simpl; [| done].
  destruct (isVerifiable _); [apply union_subseteq_r | done].
Qed.

(** X1: the batch of the session verify endpoint is exactly the set of
    identifiers that some received contract names, that the registry holds,
    and whose wrapper satisfies the selector with the target of that received
    contract; a later received contract never takes an identifier out. *)
Theorem session_verify_batch_exact :
  ∀ (cw : gmap string ContractWrapper) receivedContracts id,
    id ∈ (foldl receiveContract (cw, ∅) receivedContracts).2
    ↔ ∃ rc w, rc ∈ receivedContracts ∧ verificationId rc = id
              ∧ cw !! id = Some w
              ∧ isVerifiable (assignReceived rc w) = true.
Proof.
  intros cw rcs id. split.
  - intros Hid. apply receiveContract_batch in Hid as [Hid | Hid]; [| done].
    by apply not_elem_of_empty in Hid.
  - intros (rc & w & Hin & <- & Hl & Hok).
    apply list_elem_of_split in Hin as (pre & post & ->).
    rewrite foldl_app. cbn [foldl].
    apply receiveContract_batch_mono.
    set (st := foldl receiveContract (cw, ∅) pre).
    assert (Hst : st.1 !! verificationId rc
                  = Some (foldl (assignNamed (verificationId rc)) w pre)).
    { subst st. rewrite receiveContract_lookup. cbn [fst]. by rewrite Hl. }
    unfold receiveContract. rewrite Hst. cbn.
    assert (isVerifiable
              (assignReceived rc (foldl (assignNamed (verificationId rc)) w pre))
            = true) as ->.
    { rewrite <- Hok. apply isVerifiable_ext; [| done..].
      cbn. by destruct (assignNamed_frame (verificationId rc) pre w) as (-> & _). }
    apply elem_of_union_l. by apply elem_of_singleton.
Qed.

(** X2: a received contract whose verificationId the registry does not hold
    is skipped, provided the identifier does not name a property that every
    object inherits (for such a name [session.contractWrappers[id]] is
    truthy): the loop of the session verify endpoint gives the same registry
    and the same batch as on the received contracts without the unknown
    ones, and so does the whole handler. *)
Theorem session_verify_ignores_unknown_ids :
  ∀ receivedContracts W,
    (∀ rc, rc ∈ receivedContracts →
           verificationId rc ∉ dom (registry (session W)) →
           verificationId rc ∉ objectPrototypeKeys) →
    let known :=
      filter (λ rc, verificationId rc ∈ dom (registry (session W)))
        receivedContracts in
    foldl receiveContract (registry (session W), ∅) receivedContracts
    = foldl receiveContract (registry (session W), ∅) known
    ∧ verifyContractsInSessionEndpoint receivedContracts W
      = verifyContractsInSessionEndpoint known W.
Proof.
  intros rcs W _ known.
  assert (Hloop : ∀ rcs (st : gmap string ContractWrapper * gset string),
            foldl receiveContract st rcs
            = foldl receiveContract st
                (filter (λ rc, verificationId rc ∈ dom st.1) rcs)).
  { clear. intros rcs. induction rcs as [|rc rcs IH]; intros st; [done |].
    rewrite filter_cons. cbn [foldl].
    destruct (decide (verificationId rc ∈ dom st.1)) as [Hin | Hout].
    - cbn [foldl]. rewrite IH. by rewrite receiveContract_step_dom.
    - assert (receiveContract st rc = st) as ->; [| apply IH].
      unfold receiveContract. apply not_elem_of_dom in Hout. by rewrite Hout. }
  assert (Hsame : foldl receiveContract (registry (session W), ∅) rcs
                  = foldl receiveContract (registry (session W), ∅) known)
    by apply Hloop.
  split; [done |].
  unfold verifyContractsInSessionEndpoint. run.
  destruct (noWrappers (session W)); [done |]. by rewrite Hsame.
Qed.

(** ** The loop of the session import, continued *)

Lemma importTarget_lookup addr chain ids st id :
  NoDup ids →
  (foldl (importTarget addr chain) st ids).1 !! id
  = if decide (id ∈ ids) then adoptTarget addr chain <$> st.1 !! id
    else st.1 !! id.
Proof.
  intros Hnd. revert st.
  induction Hnd as [|a ids Ha Hnd IH]; intros st; cbn [foldl].
  - by rewrite decide_False by apply not_elem_of_nil.
  - rewrite IH. unfold importTarget.
    destruct (decide (id ∈ ids)) as [Hin | Hout].
    + rewrite (decide_True (P := id ∈ a :: ids)) by by right.
      destruct (st.1 !! a) eqn:Hl; cbn; [| done].
      rewrite lookup_insert_ne; [done | intros ->; contradiction].
    + destruct (decide (id = a)) as [-> | Hne].
      * rewrite (decide_True (P := a ∈ a :: ids)) by by left.
        destruct (st.1 !! a) eqn:Hl; cbn; [by rewrite lookup_insert_eq | by rewrite Hl].
      * rewrite (decide_False (P := id ∈ a :: ids))
          by (intros [?|?]%elem_of_cons; done).
        destruct (st.1 !! a) eqn:Hl; cbn; [by rewrite lookup_insert_ne | done].
Qed.

Lemma importTarget_batch_mono addr chain ids st :
  st.2 ⊆ (foldl (importTarget addr chain) st ids).2.
Proof.
  revert st. induction ids as [|a ids IH]; intros st; simpl; [done |].
  etrans; [| apply IH]. unfold importTarget.
  destruct (st.1 !! a); simpl; [| done].
  destruct (isVerifiable _); [apply union_subseteq_r | done].
Qed.

Lemma elem_of_keys {A} (m : gmap string A) id :
  id ∈ (map_to_list m).*1 ↔ is_Some (m !! id).
Proof.
  rewrite list_elem_of_fmap. split.
  - intros ([k v] & -> & Hin). apply elem_of_map_to_list in Hin. by eexists.
  - intros [v Hv]. exists (id, v). split; [done |]. by apply elem_of_map_to_list.
Qed.

(** X3: the loop of the session import visits every wrapper of the registry
    once.  A wrapper whose address is truthy is left as it is, whatever the
    request says; a wrapper whose address is unset or empty takes the address
    and the chain of the request, its chainId being overwritten if it had
    one, and keeps every other field.  The batch holds exactly the wrappers
    that then satisfy the selector. *)
Theorem session_import_adopts_target :
  ∀ addr chain (cw : gmap string ContractWrapper),
    let st := foldl (importTarget addr chain) (cw, ∅) (map_to_list cw).*1 in
    st.1 = adoptTarget addr chain <$> cw
    ∧ (∀ id w, cw !! id = Some w → truthy (address w) = true →
         st.1 !! id = Some w)
    ∧ (∀ id w, cw !! id = Some w → truthy (address w) = false →
         ∃ w', st.1 !! id = Some w'
               ∧ address w' = Some addr ∧ chainId w' = Some chain
               ∧ contract w' = contract w
               ∧ creatorTxHash w' = creatorTxHash w
               ∧ status w' = status w
               ∧ statusMessage w' = statusMessage w
               ∧ storageTimestamp w' = storageTimestamp w)
    ∧ (∀ id, id ∈ st.2
             ↔ ∃ w, cw !! id = Some w
                    ∧ isVerifiable (adoptTarget addr chain w) = true).
Proof.
  intros addr chain cw st.
  assert (Hreg : st.1 = adoptTarget addr chain <$> cw).
  { apply map_eq. intros id. subst st.
    rewrite importTarget_lookup by apply map_to_list_keys_NoDup.
    rewrite lookup_fmap. cbn [fst]. case_decide as Hin; [done |].
    rewrite elem_of_keys in Hin. apply eq_None_not_Some in Hin. by rewrite Hin. }
  split_and!.
  - done.
  - intros id w Hl Ht. rewrite Hreg, lookup_fmap, Hl. cbn.
    unfold adoptTarget. by rewrite Ht.
  - intros id w Hl Ht. rewrite Hreg, lookup_fmap, Hl. cbn.
    unfold adoptTarget. rewrite Ht. cbn. eexists. by split_and!.
  - intros id. split.
    + intros Hid. unfold st in Hid.
      apply importTarget_batch in Hid as [Hid | (w' & Hw' & Hok)];
        [by apply not_elem_of_empty in Hid | | apply map_to_list_keys_NoDup].
      fold st in Hw'. rewrite Hreg, lookup_fmap in Hw'.
      destruct (cw !! id) as [w|]; [| done]. cbn in Hw'.
      inversion Hw'; subst w'. eauto.
    + intros (w & Hl & Hok).
      assert (Hin : id ∈ (map_to_list cw).*1) by (apply elem_of_keys; eauto).
      unfold st. apply list_elem_of_split in Hin as (pre & post & Hsplit).
      pose proof (map_to_list_keys_NoDup cw) as Hnd.
      rewrite Hsplit in Hnd |- *.
      apply NoDup_app in Hnd as (Hpre & Hdisj & _).
      rewrite foldl_app. cbn [foldl]. apply importTarget_batch_mono.
      unfold importTarget at 1.
      rewrite importTarget_lookup by done. cbn [fst].
      rewrite decide_False, Hl; [| intros Hp; by apply (Hdisj id Hp); left].
      cbn. rewrite Hok. apply elem_of_union_l. by apply elem_of_singleton.
Qed.

(** ** The CREATE2 handlers, continued *)

(** X4: what the session CREATE2 verify operation writes when the library
    returns a match.  The named wrapper's status is the match's kind, or
    [error] when the match is a non-match; its status message and storage
    timestamp are the match's, also when the match has none; its contract and
    creatorTxHash are kept; every other wrapper is left as it was.  A
    successful match is stored exactly once, with the contract rebuilt from
    the wrapper; the response is the snapshot of the session. *)
Theorem sessionVerifyCreate2_effect :
  ∀ req W contractWrapper match_,
    registry (session W) !! s_verificationId req = Some contractWrapper →
    libVerifyCreate2 (checkedContractOf contractWrapper)
      (s_deployerAddress req) (s_salt req) (s_create2Address req)
      (s_abiEncodedConstructorArguments req) = Returned match_ →
    let out := sessionVerifyCreate2 req W in
    out.1 = Returned (SessionJSON (getSessionJSON (session out.2)))
    ∧ (∃ w', registry (session out.2) !! s_verificationId req = Some w'
             ∧ status w'
               = match match_status match_ with
                 | match_valid_runtime => valid_runtime
                 | match_valid_creation => valid_creation
                 | match_false => error
                 end
             ∧ statusMessage w' = match_message match_
             ∧ storageTimestamp w' = match_storageTimestamp match_
             ∧ contract w' = contract contractWrapper
             ∧ creatorTxHash w' = creatorTxHash contractWrapper)
    ∧ (∀ id, id ≠ s_verificationId req →
         registry (session out.2) !! id = registry (session W) !! id)
    ∧ inputFiles (session out.2) = inputFiles (session W)
    ∧ newCalls W out.2
      = if truthyStatus (match_status match_)
        then [CallStoreMatch (checkedContractOf contractWrapper) match_]
        else [].
Proof.
  intros req W w m Hl Hm out. subst out. unfold sessionVerifyCreate2. run.
  rewrite (noWrappers_lookup _ _ _ Hl), Hl. cbn. rewrite Hm. cbn.
  destruct (truthyStatus (match_status m)) eqn:Hst; cbn;
    rewrite registry_setRegistry.
  - split_and!; [done | | | done | by apply newCalls_eq].
    + eexists. rewrite lookup_insert_eq. split; [done |]. by split_and!.
    + intros id Hne. by rewrite lookup_insert_ne.
  - split_and!; [done | | | done | by apply newCalls_eq; rewrite app_nil_r].
    + eexists. rewrite lookup_insert_eq. split; [done |]. by split_and!.
    + intros id Hne. by rewrite lookup_insert_ne.
Qed.

(** X5: the two session CREATE2 operations on a wrapper that is not there,
    or on a library that fails.  With no registry or an empty one they throw
    the [BadRequestError]; with wrappers but none under the requested
    verificationId they throw a [TypeError], not a client error; when the
    library call throws they throw what it threw, and the wrapper is not
    marked.  In all three cases the session and the log are left as they
    were.  The precompile operation throws in no other case. *)
Theorem session_create2_missing_wrapper :
  ∀ W,
    (noWrappers (session W) = true →
       (∀ req, sessionVerifyCreate2 req W
               = (Thrown (BadRequestError
                            "There are currently no pending contracts."), W))
       ∧ (∀ id, sessionPrecompileContract id W
                = (Thrown (BadRequestError
                             "There are currently no pending contracts."), W)))
    ∧ (noWrappers (session W) = false →
         (∀ req, registry (session W) !! s_verificationId req = None →
            ∃ msg, sessionVerifyCreate2 req W = (Thrown (TypeError msg), W))
         ∧ (∀ id, registry (session W) !! id = None →
              ∃ msg, sessionPrecompileContract id W = (Thrown (TypeError msg), W)))
    ∧ (∀ req e w,
         registry (session W) !! s_verificationId req = Some w →
         libVerifyCreate2
           (mkCheckedContract (metadata (contract w)) (solidity (contract w))
              (missing (contract w)) (invalid (contract w)) None)
           (s_deployerAddress req) (s_salt req) (s_create2Address req)
           (s_abiEncodedConstructorArguments req) = Thrown e →
         sessionVerifyCreate2 req W = (Thrown e, W))
    ∧ (∀ id e w,
         registry (session W) !! id = Some w →
         recompile
           (mkCheckedContract (metadata (contract w)) (solidity (contract w))
              (missing (contract w)) (invalid (contract w)) None) = Thrown e →
         sessionPrecompileContract id W = (Thrown e, W))
    ∧ (∀ id e w,
         registry (session W) !! id = Some w →
         (sessionPrecompileContract id W).1 = Thrown e →
         recompile
           (mkCheckedContract (metadata (contract w)) (solidity (contract w))
              (missing (contract w)) (invalid (contract w)) None) = Thrown e
         ∧ (sessionPrecompileContract id W).2 = W).
Proof.
  intros W. split_and!.
  - intros Hnw. split; intros ?;
      [unfold sessionVerifyCreate2 | unfold sessionPrecompileContract];
      run; by rewrite Hnw.
  - intros Hnw. split; intros ? Hl;
      [unfold sessionVerifyCreate2 | unfold sessionPrecompileContract];
      run; rewrite Hnw, Hl; by eexists.
  - intros req e w Hl Hlib. unfold sessionVerifyCreate2. run.
    rewrite (noWrappers_lookup _ _ _ Hl), Hl. cbn.
    unfold checkedContractOf, newCheckedContract. by rewrite Hlib.
  - intros id e w Hl Hrc. unfold sessionPrecompileContract. run.
    rewrite (noWrappers_lookup _ _ _ Hl), Hl. cbn.
    unfold checkedContractOf, newCheckedContract. by rewrite Hrc.
  - intros id e w Hl. unfold sessionPrecompileContract. run.
    rewrite (noWrappers_lookup _ _ _ Hl), Hl. cbn.
    unfold checkedContractOf, newCheckedContract.
    destruct (recompile _) as [bc|e']; cbn; [done | by intros [= ->]].
Qed.

Lemma filter_none {A} (P : A → Prop) `{!∀ x, Decision (P x)} (l : list A) :
  (∀ x, x ∈ l → ¬ P x) → filter P l = [].
Proof.
  induction l as [|a l IH]; intros Hn; [done |].
  rewrite filter_cons. destruct (decide (P a)) as [Hp | _].
  - exfalso. apply (Hn a); [by left | done].
  - apply IH. intros x Hx. apply Hn. by right.
Qed.

(** X6: the paths of the CREATE2 handler without a session.  A request
    without files gives the [BadRequestError] "No files found"; an [Error]
    thrown by [checkFiles] is rethrown as a [BadRequestError] with its
    message, any other thrown value as it is; one checked contract that is
    not valid (missing sources ignored) gives the [BadRequestError] listing
    the invalid ones; in these cases, and when the library throws, the
    session and the log are as before.  Otherwise the library is called on
    the first checked contract only: a match whose status is falsy is
    answered and not stored; a match whose status is truthy is handed to
    [storeMatch] once, with that first contract, and is the only possible
    answer.  When [checkFiles] returns no contract at all, the library is
    called with [undefined] as contract, and so is [storeMatch] if the match
    has a truthy status.  The session is never touched. *)
Theorem verifyCreate2_outcomes :
  ∀ req W,
    create2_validation req = [] →
    let out := verifyCreate2 req W in
    (extractFilesFromJSON (files req) = None →
       out = (Thrown (BadRequestError "No files found"), W))
    ∧ (∀ inputFiles e,
         extractFilesFromJSON (files req) = Some inputFiles →
         checkFiles inputFiles = Thrown e →
         out = (Thrown (if isError e then BadRequestError (message e) else e), W))
    ∧ (∀ inputFiles checkedContracts c,
         extractFilesFromJSON (files req) = Some inputFiles →
         checkFiles inputFiles = Returned checkedContracts →
         c ∈ checkedContracts → isValid c true = false →
         out = (Thrown (BadRequestError
                          ("Invalid or missing sources in:" ++ newline
                             ++ joinLines
                                  (stringifyInvalidAndMissing
                                     <$> filter (λ c, negb (isValid c true))
                                           checkedContracts))),
                W))
    ∧ (∀ inputFiles c others,
         extractFilesFromJSON (files req) = Some inputFiles →
         checkFiles inputFiles = Returned (c :: others) →
         (∀ c', c' ∈ c :: others → isValid c' true = true) →
         (∀ e, libVerifyCreate2 c (deployerAddress req) (salt req)
                 (create2Address req) (abiEncodedConstructorArguments req)
               = Thrown e →
               out = (Thrown e, W))
         ∧ (∀ match_,
              libVerifyCreate2 c (deployerAddress req) (salt req)
                (create2Address req) (abiEncodedConstructorArguments req)
              = Returned match_ →
              session out.2 = session W
              ∧ (truthyStatus (match_status match_) = false →
                   out = (Returned (MatchResult [match_]), W))
              ∧ (truthyStatus (match_status match_) = true →
                   newCalls W out.2 = [CallStoreMatch c match_]
                   ∧ ∀ r, out.1 = Returned r → r = MatchResult [match_])))
    ∧ (∀ inputFiles,
         extractFilesFromJSON (files req) = Some inputFiles →
         checkFiles inputFiles = Returned [] →
         (∀ e, libVerifyCreate2Undefined (deployerAddress req) (salt req)
                 (create2Address req) (abiEncodedConstructorArguments req)
               = Thrown e →
               out = (Thrown e, W))
         ∧ (∀ match_,
              libVerifyCreate2Undefined (deployerAddress req) (salt req)
                (create2Address req) (abiEncodedConstructorArguments req)
              = Returned match_ →
              session out.2 = session W
              ∧ newCalls W out.2
                = (if truthyStatus (match_status match_)
                   then [CallStoreMatchUndefined match_] else [])
              ∧ ∀ r, out.1 = Returned r → r = MatchResult [match_])).
Proof.
  intros req W Hval out. subst out.
  unfold verifyCreate2, checkFilesOrBadRequest. run. rewrite Hval. cbn.
  split_and!.
  - by intros ->.
  - intros inputFiles e -> ->. cbn. by destruct (isError e).
  - intros inputFiles cs c -> -> Hc Hinv. cbn.
    destruct (stringifyInvalidAndMissing <$> filter _ cs) as [|x xs] eqn:Herr;
      cbn; [| done].
    apply fmap_nil_inv in Herr.
    assert (Hin : c ∈ filter (λ c, negb (isValid c true)) cs).
    { apply list_elem_of_filter. split; [| done]. by rewrite Hinv. }
    rewrite Herr in Hin. by apply elem_of_nil in Hin.
  - intros inputFiles c others -> -> Hvalid. cbn.
    assert (Hnone : filter (λ c, negb (isValid c true)) (c :: others) = []).
    { apply filter_none. intros c' Hc'. rewrite (Hvalid c' Hc'). by intros []. }
    cbn in Hnone. rewrite Hnone. cbn. split.
    + intros e ->. done.
    + intros m ->. cbn.
      destruct (truthyStatus (match_status m)) eqn:Hst; cbn.
      * split_and!; [done | done |]. intros _. split; [by apply newCalls_eq |].
        by intros r [= <-].
      * by split_and!.
  - intros inputFiles -> ->. cbn. split.
    + by intros e ->.
    + intros m ->. cbn.
      destruct (truthyStatus (match_status m)); cbn.
      * split_and!; [done | by apply newCalls_eq | by intros r [= <-]].
      * split_and!; [done | by apply newCalls_eq; rewrite app_nil_r
                     | by intros r [= <-]].
Qed.

(** ** The import without a session, continued *)

(** X7: the paths of the import without a session.  It never touches the
    session.  When the block explorer, the compiler or the engine throws, it
    throws the same exception and the log is as before: [storeMatch] is not
    called.  It answers only when all three returned, and then with the
    engine's match for a contract that has no missing and no invalid source,
    verified on [body.chain] without a creator transaction; that match is
    the one handed to [storeMatch], once. *)
Theorem verifyFromEtherscan_outcomes :
  ∀ req W,
    legacy_validation req = [] →
    let out := verifyFromEtherscan req W in
    session out.2 = session W
    ∧ (∀ e, processRequestFromEtherscan (body_chain req) (body_address req)
            = Thrown e →
            out = (Thrown e, W))
    ∧ (∀ er e,
         processRequestFromEtherscan (body_chain req) (body_address req)
           = Returned er →
         getMetadataFromCompiler (compilerVersion er) (solcJsonInput er)
           (contractName er) = Thrown e →
         out = (Thrown e, W))
    ∧ (∀ er metadata e,
         processRequestFromEtherscan (body_chain req) (body_address req)
           = Returned er →
         getMetadataFromCompiler (compilerVersion er) (solcJsonInput er)
           (contractName er) = Returned metadata →
         verifyDeployed
           (mkCheckedContract metadata
              (getMappedSourcesFromJsonInput (solcJsonInput er)) [] [] None)
           (body_chain req) (body_address req) None = Thrown e →
         out = (Thrown e, W))
    ∧ (∀ r, out.1 = Returned r →
         ∃ er metadata match_,
           processRequestFromEtherscan (body_chain req) (body_address req)
             = Returned er
           ∧ getMetadataFromCompiler (compilerVersion er) (solcJsonInput er)
               (contractName er) = Returned metadata
           ∧ verifyDeployed
               (mkCheckedContract metadata
                  (getMappedSourcesFromJsonInput (solcJsonInput er)) [] [] None)
               (body_chain req) (body_address req) None = Returned match_
           ∧ r = MatchResult [match_]
           ∧ newCalls W out.2
             = [CallStoreMatch
                  (mkCheckedContract metadata
                     (getMappedSourcesFromJsonInput (solcJsonInput er)) [] [] None)
                  match_]).
Proof.
  intros req W Hval out. subst out.
  assert (Hrun :
    verifyFromEtherscan req W
    = match processRequestFromEtherscan (body_chain req) (body_address req) with
      | Thrown e => (Thrown e, W)
      | Returned er =>
          match getMetadataFromCompiler (compilerVersion er) (solcJsonInput er)
                  (contractName er) with
          | Thrown e => (Thrown e, W)
          | Returned md =>
              let c := mkCheckedContract md
                         (getMappedSourcesFromJsonInput (solcJsonInput er))
                         [] [] None in
              match verifyDeployed c (body_chain req) (body_address req) None with
              | Thrown e => (Thrown e, W)
              | Returned m =>
                  (Returned (MatchResult [m]),
                   mkWorld (session W) (calls W ++ [CallStoreMatch c m]))
              end
          end
      end).
  { unfold verifyFromEtherscan. run. rewrite Hval. cbn.
    destruct (processRequestFromEtherscan _ _) as [er|e0]; cbn; [| done].
    destruct (getMetadataFromCompiler _ _ _) as [md|e0]; cbn; [| done].
    unfold newCheckedContract. by destruct (verifyDeployed _ _ _ _). }
  rewrite Hrun. clear Hrun. split_and!.
  - destruct (processRequestFromEtherscan _ _) as [er|e0]; [| done].
    destruct (getMetadataFromCompiler _ _ _) as [md|e0]; [| done].
    cbv zeta. by destruct (verifyDeployed _ _ _ _).
  - by intros e ->.
  - by intros er e -> ->.
  - intros er md e -> ->. cbv zeta. by intros ->.
  - intros r.
    destruct (processRequestFromEtherscan _ _) as [er|e0]; [| done].
    destruct (getMetadataFromCompiler _ _ _) as [md|e0] eqn:Hmd; [| done].
    cbv zeta.
    destruct (verifyDeployed _ _ _ _) as [m|e0] eqn:Hm; [| done].
    cbn. intros [= <-]. exists er, md, m. split_and!; try done.
    by apply newCalls_eq.
Qed.

(** ** The file endpoints, continued *)

(** X8: when a submission adds a new file, both file endpoints regroup once
    and then hand the whole registry of the regrouped session to the
    orchestrator, verifiable or not; these are the first two calls they log,
    every later one being a [storeMatch]; the response is the snapshot of
    the session they leave. *)
Theorem new_files_regroup_then_verify_all :
  (∀ req W inputFiles,
     files_validation req = [] →
     requestedFiles req = Returned (Some inputFiles) →
     (saveFiles (toPathContent <$> inputFiles) (session W)).1 ≠ 0 →
     let saved := saveFiles (toPathContent <$> inputFiles) (session W) in
     let out := addInputFilesEndpoint req W in
     out.1 = Returned (SessionJSON (getSessionJSON (session out.2)))
     ∧ ∃ stores,
         newCalls W out.2
         = CallCheckContractsInSession
             :: CallVerifyContractsInSession
                  (dom (registry (groupContracts saved.2)))
             :: stores
         ∧ Forall isStoreCall stores)
  ∧ (∀ req W bytecode cid text,
       contract_validation req = [] →
       getBytecode (contract_chainId req) (contract_address req)
         = Returned bytecode →
       bytecodeDecode bytecode = Returned (Some cid) → cid ≠ "" →
       performFetch (getIpfsGateway ++ cid) = Returned (Some text) →
       text ≠ "" →
       (saveFiles [mkPathContent metadataFileName (stringToBase64 text)]
          (session W)).1 ≠ 0 →
       let saved :=
         saveFiles [mkPathContent metadataFileName (stringToBase64 text)]
           (session W) in
       let out := addInputContractEndpoint req W in
       out.1 = Returned (SessionJSON (getSessionJSON (session out.2)))
       ∧ ∃ stores,
           newCalls W out.2
           = CallCheckContractsInSession
               :: CallVerifyContractsInSession
                    (dom (registry (groupContracts saved.2)))
               :: stores
           ∧ Forall isStoreCall stores).
Proof.
  split.
  - intros req W inputFiles Hval Hfiles Hn saved out. subst out saved.
    unfold addInputFilesEndpoint. run. rewrite Hval, Hfiles. cbn.
    rewrite decide_False by done. cbn.
    rewrite verifyContractsInSession_returns. cbn.
    split; [done |]. eexists. split; [| apply storesOf_stores].
    apply newCalls_eq. rewrite verifyContractsInSession_calls. cbn.
    by rewrite <- app_assoc.
  - intros req W bytecode cid text Hval Hbc Hcid Hne Hfetch Hte Hn saved out.
    subst out saved. unfold addInputContractEndpoint. run.
    rewrite Hval, Hbc. cbn. rewrite Hcid. cbn.
    assert (String.eqb cid "" = false) as -> by by apply String.eqb_neq.
    cbn. rewrite Hfetch. cbn.
    assert (String.eqb text "" = false) as -> by by apply String.eqb_neq.
    cbn. rewrite decide_False by done. cbn.
    rewrite verifyContractsInSession_returns. cbn.
    split; [done |]. eexists. split; [| apply storesOf_stores].
    apply newCalls_eq. rewrite verifyContractsInSession_calls. cbn.
    by rewrite <- app_assoc.
Qed.

(** X9: a file submission that fails leaves no trace.  When one of the two
    file endpoints throws, the session and the log are as before the request.
    The upload endpoint throws a [ValidationError] or what the remote fetch
    threw; the contract endpoint throws a [ValidationError], the
    [BadRequestError] of a bytecode without an IPFS CID, a plain [Error] when
    the metadata could not be retrieved, or what reading the bytecode,
    decoding it or fetching the metadata threw. *)
Theorem failed_submission_leaves_no_trace :
  (∀ req W e,
     (addInputFilesEndpoint req W).1 = Thrown e →
     (addInputFilesEndpoint req W).2 = W
     ∧ ((∃ msg, e = ValidationError msg)
        ∨ (truthy (query_url req) = true
           ∧ addRemoteFile (default "" (query_url req)) = Thrown e)))
  ∧ (∀ req W e,
       (addInputContractEndpoint req W).1 = Thrown e →
       (addInputContractEndpoint req W).2 = W
       ∧ ((∃ msg, e = ValidationError msg)
          ∨ getBytecode (contract_chainId req) (contract_address req) = Thrown e
          ∨ (∃ bytecode, bytecodeDecode bytecode = Thrown e)
          ∨ e = BadRequestError "The contract doesn't have a metadata IPFS CID"
          ∨ (∃ url, performFetch url = Thrown e)
          ∨ (∃ url, e = GenericError ("Could not retrieve metadata from " ++ url)))).
Proof.
  split.
  - intros req W e. unfold addInputFilesEndpoint, requestedFiles. run.
    destruct (files_validation req); cbn;
      [| intros [= <-]; split; [done | eauto]].
    destruct (truthy (query_url req)) eqn:Hurl; cbn.
    + destruct (addRemoteFile _) as [fs|e0] eqn:Hr; cbn;
        [| intros [= <-]; split; [done | eauto]].
      case_decide; cbn; [done |].
      by rewrite verifyContractsInSession_returns.
    + destruct (extractFiles req); cbn;
        [| intros [= <-]; split; [done | eauto]].
      case_decide; cbn; [done |].
      by rewrite verifyContractsInSession_returns.
  - intros req W e. unfold addInputContractEndpoint. run.
    destruct (contract_validation req); cbn;
      [| intros [= <-]; split; [done | eauto]].
    destruct (getBytecode _ _) as [bc|e0] eqn:Hbc; cbn;
      [| intros [= <-]; split; [done | eauto]].
    destruct (bytecodeDecode bc) as [cid|e0] eqn:Hcid; cbn;
      [| intros [= <-]; split; [done | eauto 6]].
    destruct (truthy cid); cbn;
      [| intros [= <-]; split; [done | eauto 6]].
    destruct (performFetch _) as [text|e0] eqn:Hf; cbn;
      [| intros [= <-]; split; [done | eauto 8]].
    destruct (truthy text); cbn;
      [| intros [= <-]; split; [done | eauto 9]].
    case_decide; cbn; [done |].
    by rewrite verifyContractsInSession_returns.
Qed.

(** ** Precompiling and verifying in a session *)

Lemma noWrappers_true_lookup s id : noWrappers s = true → registry s !! id = None.
Proof.
  intros Hnw. destruct (registry s !! id) eqn:Hl; [| done].
  by rewrite (noWrappers_lookup _ _ _ Hl) in Hnw.
Qed.

Lemma sessionPrecompileContract_world id W :
  (sessionPrecompileContract id W).2
  = match registry (session W) !! id with
    | Some w =>
        match recompile (checkedContractOf w) with
        | Returned bytecode =>
            mkWorld
              (setRegistry
                 (<[id := setCreationBytecode (Some bytecode) w]>
                    (registry (session W))) (session W))
              (calls W)
        | Thrown _ => W
        end
    | None => W
    end.
Proof.
  unfold sessionPrecompileContract. run.
  destruct (noWrappers (session W)) eqn:Hnw; cbn.
  { by rewrite noWrappers_true_lookup. }
  destruct (registry (session W) !! id); cbn; [| done].
  by destruct (recompile _).
Qed.

Lemma sessionVerifyCreate2_world req W :
  (sessionVerifyCreate2 req W).2
  = match registry (session W) !! s_verificationId req with
    | Some w =>
        match libVerifyCreate2 (checkedContractOf w) (s_deployerAddress req)
                (s_salt req) (s_create2Address req)
                (s_abiEncodedConstructorArguments req) with
        | Returned m =>
            mkWorld
              (setRegistry
                 (<[s_verificationId req := assignCreate2Match m w]>
                    (registry (session W))) (session W))
              (calls W ++ if truthyStatus (match_status m)
                          then [CallStoreMatch (checkedContractOf w) m]
                          else [])
        | Thrown _ => W
        end
    | None => W
    end.
Proof.
  unfold sessionVerifyCreate2. run.
  destruct (noWrappers (session W)) eqn:Hnw; cbn.
  { by rewrite noWrappers_true_lookup. }
  destruct (registry (session W) !! _); cbn; [| done].
  destruct (libVerifyCreate2 _ _ _ _ _) as [m|e]; cbn; [| done].
  destruct (truthyStatus (match_status m)); cbn; [done |].
  by rewrite app_nil_r.
Qed.

Lemma checkedContractOf_setCreationBytecode bc w :
  checkedContractOf (setCreationBytecode bc w) = checkedContractOf w.
Proof. reflexivity. Qed.

Lemma checkedContractOf_assignCreate2Match m w :
  checkedContractOf (assignCreate2Match m w) = checkedContractOf w.
Proof. reflexivity. Qed.

(** X10: the precompile step and the session CREATE2 verify operation do not
    see each other.  After a precompile the wrapper holds the refreshed
    creation bytecode, yet the contract the verify operation hands to the
    library and to [storeMatch] is rebuilt from the wrapper's metadata,
    sources, missing and invalid lists and carries no creation bytecode; the
    verify operation in turn leaves the wrapper's creation bytecode in place.
    So running the two in either order leaves the same session and the same
    log, for any two verificationIds. *)
Theorem precompile_commutes_with_create2_verify :
  (∀ id req W,
     (sessionVerifyCreate2 req (sessionPrecompileContract id W).2).2
     = (sessionPrecompileContract id (sessionVerifyCreate2 req W).2).2)
  ∧ (∀ req W w bytecode match_,
       registry (session W) !! s_verificationId req = Some w →
       recompile
         (mkCheckedContract (metadata (contract w)) (solidity (contract w))
            (missing (contract w)) (invalid (contract w)) None)
         = Returned bytecode →
       libVerifyCreate2
         (mkCheckedContract (metadata (contract w)) (solidity (contract w))
            (missing (contract w)) (invalid (contract w)) None)
         (s_deployerAddress req) (s_salt req) (s_create2Address req)
         (s_abiEncodedConstructorArguments req) = Returned match_ →
       let W1 := (sessionPrecompileContract (s_verificationId req) W).2 in
       let W2 := (sessionVerifyCreate2 req W1).2 in
       (∃ w1, registry (session W1) !! s_verificationId req = Some w1
              ∧ creationBytecode (contract w1) = Some bytecode)
       ∧ newCalls W1 W2
         = (if truthyStatus (match_status match_)
            then [CallStoreMatch
                    (mkCheckedContract (metadata (contract w))
                       (solidity (contract w)) (missing (contract w))
                       (invalid (contract w)) None)
                    match_]
            else [])
       ∧ (∃ w2, registry (session W2) !! s_verificationId req = Some w2
                ∧ creationBytecode (contract w2) = Some bytecode
                ∧ address w2 = Some (match_address match_))).
Proof.
  split.
  - intros id req W.
    rewrite (sessionVerifyCreate2_world req (sessionPrecompileContract id W).2).
    rewrite (sessionPrecompileContract_world id (sessionVerifyCreate2 req W).2).
    rewrite (sessionPrecompileContract_world id W).
    rewrite (sessionVerifyCreate2_world req W).
    destruct (decide (id = s_verificationId req)) as [-> | Hne].
    + destruct (registry (session W) !! s_verificationId req) as [w|] eqn:Hl;
        [| by rewrite Hl].
      destruct (recompile (checkedContractOf w)) as [bc|e] eqn:Hrc;
        destruct (libVerifyCreate2 (checkedContractOf w) _ _ _ _)
          as [m|e'] eqn:Hlib;
        repeat (progress
                  (cbn [session calls];
                   rewrite ?registry_setRegistry, ?lookup_insert_eq, ?Hl,
                     ?checkedContractOf_setCreationBytecode,
                     ?checkedContractOf_assignCreate2Match, ?Hrc, ?Hlib,
                     ?insert_insert_eq));
        done.
    + destruct (registry (session W) !! id) as [w|] eqn:Hl;
        destruct (registry (session W) !! s_verificationId req) as [v|] eqn:Hv;
        rewrite ?Hl, ?Hv;
        try destruct (recompile (checkedContractOf w)) as [bc|e] eqn:Hrc;
        try destruct (libVerifyCreate2 (checkedContractOf v) _ _ _ _)
          as [m|e'] eqn:Hlib;
        repeat (progress
                  (cbn [session calls];
                   rewrite ?registry_setRegistry, ?Hl, ?Hv, ?Hrc, ?Hlib;
                   rewrite ?lookup_insert_ne by done));
        try done.
      f_equal. unfold setRegistry. cbn. f_equal. f_equal.
      by apply insert_insert_ne.
  - intros req W w bc m Hl Hrc Hlib W1 W2. subst W2 W1.
    rewrite (sessionVerifyCreate2_world req).
    rewrite (sessionPrecompileContract_world (s_verificationId req) W).
    rewrite Hl.
    change (checkedContractOf w)
      with (mkCheckedContract (metadata (contract w)) (solidity (contract w))
              (missing (contract w)) (invalid (contract w)) None).
    rewrite Hrc. cbn [session calls].
    rewrite registry_setRegistry, lookup_insert_eq.
    change (checkedContractOf (setCreationBytecode (Some bc) w))
      with (mkCheckedContract (metadata (contract w)) (solidity (contract w))
              (missing (contract w)) (invalid (contract w)) None).
    rewrite Hlib. cbn [session calls]. rewrite registry_setRegistry.
    split_and!.
    + eexists. by split.
    + by apply newCalls_eq.
    + eexists. rewrite lookup_insert_eq. by split_and!.
Qed.

(** ** The selector and the batches handed to the orchestrator *)

Lemma file_endpoint_batch W0 W1 batch :
  calls W1 = (calls W0 ++ [CallCheckContractsInSession])%list →
  CallVerifyContractsInSession batch
    ∈ newCalls W0 (verifyContractsInSession (allWrappers (session W1)) W1).2 →
  batch
  = dom (registry
           (session (verifyContractsInSession (allWrappers (session W1)) W1).2)).
Proof.
  intros Hcalls Hin.
  eapply (orchestrator_newCalls _ _ [CallCheckContractsInSession]) in Hin;
    [| done].
  destruct Hin as [Hin | ->].
  - apply elem_of_cons in Hin as [? | ?%elem_of_nil]; done.
  - by rewrite verifyContractsInSession_dom.
Qed.

(** The same when the loop ends, before the orchestrator runs. *)
Lemma session_verify_batch_verifiable_when_passed rcs (W : World) id :
  NoDup (verificationId <$> rcs) →
  id ∈ (foldl receiveContract (registry (session W), ∅) rcs).2 →
  ∃ w, (foldl receiveContract (registry (session W), ∅) rcs).1 !! id = Some w
       ∧ isVerifiable w = true.
Proof.
  intros Hnd Hid. rewrite receiveContract_lookup.
  apply receiveContract_batch in Hid as [Hid | (rc & w & Hin & <- & Hl & Hok)];
    [by apply not_elem_of_empty in Hid |].
  cbn [fst] in Hl |- *. rewrite Hl. cbn. eexists. split; [done |].
  apply list_elem_of_split in Hin as (pre & post & ->).
  rewrite fmap_app, fmap_cons in Hnd.
  apply NoDup_app in Hnd as (_ & _ & Hnd). apply NoDup_cons in Hnd as [Hpost _].
  rewrite assignNamed_last by done.
  rewrite <- Hok. apply isVerifiable_ext; [| done..].
  cbn. by destruct (assignNamed_frame (verificationId rc) pre w) as (-> & _).
Qed.

(** C1, as the code has it: a wrapper is verifiable exactly when its missing
    list and its invalid list are empty and its address and chainId are set.
    The session verify endpoint and the session import put a wrapper in the
    batch only if it satisfies this predicate at that moment; every wrapper
    of the batch still satisfies it in the session the import leaves, and,
    when the received contracts name distinct wrappers, in the registry the
    loop of the verify endpoint hands over and in the session that endpoint
    leaves.  The two file endpoints do not use the predicate: the batch they
    hand to the orchestrator is the whole registry. *)
Theorem verifiable_selector_builds_batch :
  (∀ w, isVerifiable w = true ↔
        missing (contract w) = [] ∧ invalid (contract w) = []
        ∧ address w ≠ None ∧ chainId w ≠ None)
  ∧ (∀ receivedContracts W batch id,
       CallVerifyContractsInSession batch
         ∈ newCalls W (verifyContractsInSessionEndpoint receivedContracts W).2 →
       id ∈ batch →
       ∃ rc w, rc ∈ receivedContracts ∧ verificationId rc = id
               ∧ registry (session W) !! id = Some w
               ∧ isVerifiable (assignReceived rc w) = true)
  ∧ (∀ req W batch id,
       CallVerifyContractsInSession batch
         ∈ newCalls W (sessionVerifyFromEtherscan req W).2 →
       id ∈ batch →
       ∃ w, registry (session (sessionVerifyFromEtherscan req W).2) !! id = Some w
            ∧ isVerifiable w = true)
  ∧ (∀ receivedContracts W batch id,
       NoDup (verificationId <$> receivedContracts) →
       CallVerifyContractsInSession batch
         ∈ newCalls W (verifyContractsInSessionEndpoint receivedContracts W).2 →
       id ∈ batch →
       (∃ w, (foldl receiveContract (registry (session W), ∅)
                receivedContracts).1 !! id = Some w
             ∧ isVerifiable w = true)
       ∧ ∃ w, registry
                (session
                   (verifyContractsInSessionEndpoint receivedContracts W).2)
                !! id = Some w
              ∧ isVerifiable w = true)
  ∧ (∀ req W batch,
       CallVerifyContractsInSession batch
         ∈ newCalls W (addInputFilesEndpoint req W).2 →
       batch = dom (registry (session (addInputFilesEndpoint req W).2)))
  ∧ (∀ req W batch,
       CallVerifyContractsInSession batch
         ∈ newCalls W (addInputContractEndpoint req W).2 →
       batch = dom (registry (session (addInputContractEndpoint req W).2))).
Proof.
  assert (Hbatch : ∀ rcs W batch,
            CallVerifyContractsInSession batch
              ∈ newCalls W (verifyContractsInSessionEndpoint rcs W).2 →
            noWrappers (session W) = false
            ∧ batch = (foldl receiveContract (registry (session W), ∅) rcs).2).
  { intros rcs W batch Hcall.
    destruct (noWrappers (session W)) eqn:Hnw.
    - rewrite verifyContractsInSessionEndpoint_empty in Hcall by done.
      cbn [snd] in Hcall. rewrite newCalls_refl in Hcall.
      by apply elem_of_nil in Hcall.
    - rewrite verifyContractsInSessionEndpoint_run in Hcall by done.
      cbv zeta in Hcall. cbn [snd] in Hcall.
      eapply (orchestrator_newCalls _ _ []) in Hcall;
        [| by cbn [calls]; rewrite app_nil_r].
      destruct Hcall as [Hcall | ->]; [by apply elem_of_nil in Hcall | done]. }
  split_and!.
  - apply isVerifiable_spec.
  - intros rcs W batch id Hcall Hid.
    apply Hbatch in Hcall as [_ ->].
    apply receiveContract_batch in Hid as [Hid | Hid]; [| done].
    by apply not_elem_of_empty in Hid.
  - intros req W batch id. unfold sessionVerifyFromEtherscan. run.
    destruct (legacy_validation req); [| by rewrite newCalls_refl; intros ?%elem_of_nil].
    destruct (processRequestFromEtherscan _ _) as [r|e];
      [| by rewrite newCalls_refl; intros ?%elem_of_nil].
    destruct (getMetadataFromCompiler _ _ _) as [md|e];
      [| by rewrite newCalls_refl; intros ?%elem_of_nil].
    case_decide; cbn.
    { erewrite newCalls_eq by (by cbn; rewrite app_nil_r). by intros ?%elem_of_nil. }
    destruct (contractWrappers (groupContracts _)) as [cw|]; cbn.
    2: { erewrite newCalls_eq by done.
         intros [?|?%elem_of_nil]%elem_of_cons; done. }
    rewrite verifyContractsInSession_returns. cbn.
    intros Hcall Hid.
    eapply (orchestrator_newCalls _ _ [CallCheckContractsInSession]) in Hcall;
      [| done].
    destruct Hcall as [Hcall | ->].
    { apply elem_of_cons in Hcall as [?|?%elem_of_nil]; done. }
    rewrite verifyContractsInSession_registry, decide_True by done.
    cbn. rewrite registry_setRegistry.
    apply importTarget_batch in Hid as [Hid | (w & Hw & Hok)];
      [by apply not_elem_of_empty in Hid | | apply map_to_list_keys_NoDup].
    exists (verified w). rewrite Hw. split; [done |].
    by rewrite verified_isVerifiable.
  - intros rcs W batch id Hnd Hcall Hid.
    apply Hbatch in Hcall as [Hnw ->]. split.
    + by apply session_verify_batch_verifiable_when_passed.
    + by apply session_verify_batch_verifiable_when_distinct.
  - intros req W batch. unfold addInputFilesEndpoint, requestedFiles. run.
    destruct (files_validation req); cbn;
      [| by rewrite newCalls_refl; intros ?%elem_of_nil].
    destruct (truthy (query_url req)); cbn.
    + destruct (addRemoteFile _); cbn;
        [| by rewrite newCalls_refl; intros ?%elem_of_nil].
      case_decide; cbn.
      { erewrite newCalls_eq by (by cbn; rewrite app_nil_r).
        by intros ?%elem_of_nil. }
      rewrite verifyContractsInSession_returns. cbn.
      match goal with
      | |- context [verifyContractsInSession _ ?W1] =>
          by apply (file_endpoint_batch W W1)
      end.
    + destruct (extractFiles req); cbn;
        [| by rewrite newCalls_refl; intros ?%elem_of_nil].
      case_decide; cbn.
      { erewrite newCalls_eq by (by cbn; rewrite app_nil_r).
        by intros ?%elem_of_nil. }
      rewrite verifyContractsInSession_returns. cbn.
      match goal with
      | |- context [verifyContractsInSession _ ?W1] =>
          by apply (file_endpoint_batch W W1)
      end.
  - intros req W batch. unfold addInputContractEndpoint. run.
    destruct (contract_validation req); cbn;
      [| by rewrite newCalls_refl; intros ?%elem_of_nil].
    destruct (getBytecode _ _); cbn;
      [| by rewrite newCalls_refl; intros ?%elem_of_nil].
    destruct (bytecodeDecode _) as [cid|]; cbn;
      [| by rewrite newCalls_refl; intros ?%elem_of_nil].
    destruct (truthy cid); cbn;
      [| by rewrite newCalls_refl; intros ?%elem_of_nil].
    destruct (performFetch _) as [text|]; cbn;
      [| by rewrite newCalls_refl; intros ?%elem_of_nil].
    destruct (truthy text); cbn;
      [| by rewrite newCalls_refl; intros ?%elem_of_nil].
    case_decide; cbn.
    { erewrite newCalls_eq by (by cbn; rewrite app_nil_r).
      by intros ?%elem_of_nil. }
    rewrite verifyContractsInSession_returns. cbn.
    match goal with
      | |- context [verifyContractsInSession _ ?W1] =>
          by apply (file_endpoint_batch W W1)
      end.
Qed.

(** ** Who changes the target of a wrapper *)

(** C3, as the code has it: the address and the chainId of a wrapper can be
    reassigned any number of times, whatever its status, a successful match
    included: a call of the session verify endpoint that names the wrapper
    overwrites them with the values received last for it, and a session
    CREATE2 verify that names it sets them to the match's address and "0".
    They are kept by a session verify or CREATE2 verify call that names
    other wrappers, by the precompile operation, by the orchestrator, and by
    the session import for a wrapper that has an address. *)
Theorem wrapper_target_reassignment :
  (∀ pre rc post W w,
     verificationId rc ∉ verificationId <$> post →
     registry (session W) !! verificationId rc = Some w →
     ∃ w', registry
             (session (verifyContractsInSessionEndpoint (pre ++ rc :: post) W).2)
             !! verificationId rc = Some w'
           ∧ address w' = sc_address rc
           ∧ chainId w' = sc_chainId rc)
  ∧ (∀ receivedContracts W id w,
       registry (session W) !! id = Some w →
       id ∉ verificationId <$> receivedContracts →
       registry (session (verifyContractsInSessionEndpoint receivedContracts W).2)
         !! id = Some w)
  ∧ (∀ req W w match_,
       registry (session W) !! s_verificationId req = Some w →
       libVerifyCreate2
         (mkCheckedContract (metadata (contract w)) (solidity (contract w))
            (missing (contract w)) (invalid (contract w)) None)
         (s_deployerAddress req) (s_salt req) (s_create2Address req)
         (s_abiEncodedConstructorArguments req) = Returned match_ →
       ∃ w', registry (session (sessionVerifyCreate2 req W).2)
               !! s_verificationId req = Some w'
             ∧ address w' = Some (match_address match_)
             ∧ chainId w' = Some "0")
  ∧ (∀ req W id,
       id ≠ s_verificationId req →
       registry (session (sessionVerifyCreate2 req W).2) !! id
       = registry (session W) !! id)
  ∧ (∀ verificationId W id w,
       registry (session W) !! id = Some w →
       ∃ w', registry (session (sessionPrecompileContract verificationId W).2)
               !! id = Some w'
             ∧ address w' = address w ∧ chainId w' = chainId w)
  ∧ (∀ batch W id w,
       registry (session W) !! id = Some w →
       ∃ w', registry (session (verifyContractsInSession batch W).2) !! id
             = Some w'
             ∧ address w' = address w ∧ chainId w' = chainId w)
  ∧ (∀ req W er metadata cw id w,
       legacy_validation req = [] →
       processRequestFromEtherscan (body_chainId req) (body_address req)
         = Returned er →
       getMetadataFromCompiler (compilerVersion er) (solcJsonInput er)
         (contractName er) = Returned metadata →
       (saveFiles (importPathContents (solcJsonInput er) metadata)
          (session W)).1 ≠ 0 →
       contractWrappers
         (groupContracts
            (saveFiles (importPathContents (solcJsonInput er) metadata)
               (session W)).2) = Some cw →
       cw !! id = Some w →
       truthy (address w) = true →
       ∃ w', registry (session (sessionVerifyFromEtherscan req W).2) !! id
             = Some w'
             ∧ address w' = address w ∧ chainId w' = chainId w).
Proof.
  assert (Horch : ∀ batch W id w,
            registry (session W) !! id = Some w →
            ∃ w', registry (session (verifyContractsInSession batch W).2) !! id
                  = Some w'
                  ∧ address w' = address w ∧ chainId w' = chainId w).
  { intros batch W id w Hl. rewrite verifyContractsInSession_registry, Hl.
    destruct (verified_frame w) as (_ & Ha & Hc & _).
    case_decide; cbn; eauto. }
  split_and!.
  - intros pre rc post W w Hlast Hl.
    rewrite verifyContractsInSessionEndpoint_lookup
      by by eapply noWrappers_lookup.
    rewrite Hl. cbn. eexists. split; [done |].
    rewrite assignNamed_last by done.
    set (w1 := assignReceived rc _).
    destruct (verified_frame w1) as (_ & Ha & Hc & _).
    case_decide; [by rewrite Ha, Hc | done].
  - intros rcs W id w Hl Hun.
    rewrite verifyContractsInSessionEndpoint_lookup
      by by eapply noWrappers_lookup.
    rewrite Hl. cbn. rewrite assignNamed_unnamed by done.
    rewrite decide_False; [done |].
    intros Hin. apply receiveContract_batch in Hin
      as [Hin | (rc & _ & Hrc & <- & _)];
      [by apply not_elem_of_empty in Hin |].
    apply Hun, list_elem_of_fmap. eauto.
  - intros req W w m Hl Hlib. rewrite sessionVerifyCreate2_world, Hl.
    change (checkedContractOf w)
      with (mkCheckedContract (metadata (contract w)) (solidity (contract w))
              (missing (contract w)) (invalid (contract w)) None).
    rewrite Hlib. cbn [session]. rewrite registry_setRegistry, lookup_insert_eq.
    eexists. by split_and!.
  - intros req W id Hne. rewrite sessionVerifyCreate2_world.
    destruct (registry (session W) !! s_verificationId req) as [w|]; [| done].
    destruct (libVerifyCreate2 _ _ _ _ _); [| done].
    cbn [session]. by rewrite registry_setRegistry, lookup_insert_ne.
  - intros vid W id w Hl. rewrite sessionPrecompileContract_world.
    destruct (registry (session W) !! vid) as [w0|] eqn:Hl0; [| eauto].
    destruct (recompile _); [| eauto].
    cbn [session]. rewrite registry_setRegistry.
    destruct (decide (id = vid)) as [-> | Hne].
    + rewrite lookup_insert_eq. rewrite Hl0 in Hl. inversion Hl; subst.
      eexists. by split_and!.
    + rewrite lookup_insert_ne by done. eauto.
  - apply Horch.
  - intros req W er md cw id w Hval Her Hmd Hn Hcw Hl Ht.
    unfold sessionVerifyFromEtherscan. run.
    rewrite Hval, Her. cbn. rewrite Hmd. cbn.
    rewrite decide_False by done. cbn. rewrite Hcw. cbn.
    rewrite verifyContractsInSession_returns. cbn.
    apply Horch. cbn [session]. rewrite registry_setRegistry.
    rewrite importTarget_lookup by apply map_to_list_keys_NoDup.
    cbn [fst]. rewrite decide_True by (apply elem_of_keys; eauto).
    rewrite Hl. cbn. unfold adoptTarget. by rewrite Ht.
Qed.

End Properties.

(** * The client-token middleware and the routes *)

Lemma splitOn_nonempty sep s : splitOn sep s ≠ [].
Proof.
  destruct s as [|c r]; cbn; [done |].
  destruct (Ascii.eqb c sep); [done |]. by destruct (splitOn sep r).
Qed.

Lemma containsChar_cons sep c r :
  containsChar sep (String c r) ↔ sep = c ∨ containsChar sep r.
Proof. unfold containsChar. cbn. apply elem_of_cons. Qed.

Lemma splitOn_pieces sep s :
  Forall (λ piece, ¬ containsChar sep piece) (splitOn sep s).
Proof.
  induction s as [|c r IH]; cbn.
  - repeat constructor. unfold containsChar. cbn. apply not_elem_of_nil.
  - destruct (Ascii.eqb_spec c sep) as [-> | Hne].
    + constructor; [| done]. unfold containsChar. cbn. apply not_elem_of_nil.
    + destruct (splitOn sep r) as [|piece pieces]; inversion IH; subst.
      * repeat constructor. rewrite containsChar_cons.
        intros [-> | Hin]; [done |]. by apply elem_of_nil in Hin.
      * constructor; [| done]. rewrite containsChar_cons.
        intros [-> | Hin]; done.
Qed.

Lemma splitOn_without_separator sep s :
  ¬ containsChar sep s → splitOn sep s = [s].
Proof.
  induction s as [|c r IH]; intros Hs; cbn; [done |].
  rewrite containsChar_cons in Hs.
  destruct (Ascii.eqb_spec c sep) as [-> | Hne]; [tauto |].
  rewrite IH by tauto. done.
Qed.

Lemma append_empty_l (s : string) : "" ++ s = s.
Proof. reflexivity. Qed.

Lemma append_String c (r s : string) : String c r ++ s = String c (r ++ s).
Proof. reflexivity. Qed.

Lemma splitOn_prefix sep x t :
  ¬ containsChar sep x →
  splitOn sep (x ++ String sep t) = x :: splitOn sep t.
Proof.
  induction x as [|c r IH]; intros Hx.
  - rewrite append_empty_l. cbn [splitOn]. by rewrite Ascii.eqb_refl.
  - rewrite containsChar_cons in Hx. rewrite append_String. cbn [splitOn].
    destruct (Ascii.eqb_spec c sep) as [-> | Hne]; [tauto |].
    rewrite IH by tauto. done.
Qed.

Lemma splitOn_joinWith_tokens sep tokens :
  tokens ≠ [] →
  Forall (λ token, ¬ containsChar sep token) tokens →
  splitOn sep (joinWith sep tokens) = tokens.
Proof.
  induction tokens as [|x r IH]; intros Hne Hall; [done |].
  inversion Hall as [|? ? Hx Hr]; subst.
  destruct r as [|y r'].
  - cbn. by apply splitOn_without_separator.
  - change (joinWith sep (x :: y :: r'))
      with (x ++ String sep (joinWith sep (y :: r'))).
    rewrite splitOn_prefix by done. by rewrite IH.
Qed.

(** Splitting the token list at commas and joining the pieces with commas
    are inverse to each other: joining the pieces of any string gives
    the string back, no piece contains a comma, and splitting the join of a
    non-empty list of comma-free tokens gives the list back. *)
Lemma splitOn_joinWith_round_trip :
  ∀ sep,
    (∀ s, joinWith sep (splitOn sep s) = s)
    ∧ (∀ s, Forall (λ piece, ¬ containsChar sep piece) (splitOn sep s))
    ∧ (∀ tokens,
         tokens ≠ [] →
         Forall (λ token, ¬ containsChar sep token) tokens →
         splitOn sep (joinWith sep tokens) = tokens).
Proof.
  intros sep. split_and!.
  - induction s as [|c r IH]; cbn; [done |].
    pose proof (splitOn_nonempty sep r) as Hne.
    destruct (Ascii.eqb_spec c sep) as [-> | Hc].
    + destruct (splitOn sep r) as [|piece pieces] eqn:Hsp; [done |].
      cbn [joinWith]. cbn. by rewrite <- IH.
    + destruct (splitOn sep r) as [|piece pieces] eqn:Hsp; [done |].
      rewrite <- IH. by destruct pieces.
  - apply splitOn_pieces.
  - apply splitOn_joinWith_tokens.
Qed.

(** X11: the client-token middleware.  With [CREATE2_CLIENT_TOKENS] unset
    or empty every request passes.  Otherwise a request passes exactly when
    its client token is a non-empty string equal to one of the pieces of the
    variable between commas: a missing or empty token is refused even if the
    variable has an empty piece, a token with a comma in it is always
    refused, and when the variable is the comma-join of comma-free tokens
    the accepted tokens are the non-empty ones of that list. *)
Theorem authenticatedRequest_accepts :
  (∀ env clientToken,
     truthy env = false → authenticatedRequest env clientToken = Returned tt)
  ∧ (∀ env clientToken,
       truthy env = true →
       (authenticatedRequest env clientToken = Returned tt
        ↔ ∃ token, clientToken = Some token ∧ token ≠ ""
                   ∧ token ∈ splitOn comma (default "" env)))
  ∧ (∀ env clientToken,
       truthy env = true → truthy clientToken = false →
       authenticatedRequest env clientToken
       = Thrown (BadRequestError "This API is protected by a client token"))
  ∧ (∀ env token,
       truthy env = true → containsChar comma token →
       authenticatedRequest env (Some token)
       = Thrown (BadRequestError "The client token you provided is not valid"))
  ∧ (∀ tokens token,
       tokens ≠ [] →
       Forall (λ t, ¬ containsChar comma t) tokens →
       joinWith comma tokens ≠ "" →
       (authenticatedRequest (Some (joinWith comma tokens)) (Some token)
          = Returned tt
        ↔ token ≠ "" ∧ token ∈ tokens)).
Proof.
  assert (Hiff : ∀ env clientToken,
            truthy env = true →
            (authenticatedRequest env clientToken = Returned tt
             ↔ ∃ token, clientToken = Some token ∧ token ≠ ""
                        ∧ token ∈ splitOn comma (default "" env))).
  { intros env t Henv. unfold authenticatedRequest. rewrite Henv.
    destruct t as [tok|]; cbn.
    - destruct (String.eqb_spec tok "") as [-> | Hne]; cbn.
      + split; [done | intros (? & [= <-] & ? & _); done].
      + case_bool_decide as Hin.
        * split; [eauto | done].
        * split; [done | intros (? & [= <-] & _ & ?); done].
    - split; [done | intros (? & ? & _); done]. }
  split_and!.
  - intros env t Henv. unfold authenticatedRequest. by rewrite Henv.
  - done.
  - intros env t Henv Ht. unfold authenticatedRequest. by rewrite Henv, Ht.
  - intros env tok Henv Hc. unfold authenticatedRequest. rewrite Henv.
    destruct tok as [|c r]; [by apply elem_of_nil in Hc |]. cbn.
    rewrite bool_decide_eq_false_2; [done |].
    intros Hin. pose proof (splitOn_pieces comma (default "" env)) as Hp.
    rewrite Forall_forall in Hp. by apply (Hp _ Hin).
  - intros tokens tok Hne Hall Hjoin.
    rewrite Hiff.
    + change (default "" (Some (joinWith comma tokens)))
        with (joinWith comma tokens).
      rewrite (splitOn_joinWith_tokens comma tokens Hne Hall).
      split; [intros (? & [= <-] & ? & ?); done | intros [? ?]; eauto].
    + cbn. by apply negb_true_iff, String.eqb_neq.
Qed.

Section RouteProperties.
Context `{!IVerificationService, !LibSourcify, !ControllerUtil, !SolcJsonLib,
          !ExpressResponse}.

#[local] Arguments verifyContractsInSession : simpl never.
#[local] Arguments saveFiles : simpl never.
#[local] Arguments getSessionJSON : simpl never.
#[local] Arguments registry : simpl never.
#[local] Arguments setRegistry : simpl never.
#[local] Arguments importPathContents : simpl never.

Ltac run_handler :=
  repeat (unfold mbind, handler_bind, mret, handler_ret, throw, await,
            getSession, putSession, logCall, storeMatch, storeMatchUndefined,
            sendSession,
            validateRequest, checkContractsInSession; cbn).

(** X12: a request that does not pass the client-token middleware never
    reaches a CREATE2 handler: the route throws what the middleware threw and
    leaves the session and the log as they were, so nothing is stored; a
    request that passes is handled as by the handler alone.  On a protected
    deployment every answer of the two routes was therefore given to a
    request carrying one of the configured tokens. *)
Theorem create2_routes_are_guarded :
  ∀ env clientToken,
    (∀ e, authenticatedRequest env clientToken = Thrown e →
       (∀ req W, routeVerifyCreate2 env clientToken req W = (Thrown e, W))
       ∧ (∀ req W, routeSessionVerifyCreate2 env clientToken req W
                   = (Thrown e, W)))
    ∧ (authenticatedRequest env clientToken = Returned tt →
         (∀ req, routeVerifyCreate2 env clientToken req = verifyCreate2 req)
         ∧ (∀ req, routeSessionVerifyCreate2 env clientToken req
                   = sessionVerifyCreate2 req))
    ∧ (truthy env = true →
         ∀ r,
           ((∃ req W, (routeVerifyCreate2 env clientToken req W).1 = Returned r)
            ∨ (∃ req W, (routeSessionVerifyCreate2 env clientToken req W).1
                        = Returned r)) →
           ∃ token, clientToken = Some token ∧ token ≠ ""
                    ∧ token ∈ splitOn comma (default "" env)).
Proof.
  intros env t. split_and!.
  - intros e He. split; intros req W;
      [unfold routeVerifyCreate2 | unfold routeSessionVerifyCreate2];
      run_handler; by rewrite He.
  - intros Hok. split; intros req;
      [unfold routeVerifyCreate2 | unfold routeSessionVerifyCreate2];
      run_handler; by rewrite Hok.
  - intros Henv r Hr.
    destruct (authenticatedRequest env t) as [[]|e] eqn:Hauth.
    + unfold authenticatedRequest in Hauth. rewrite Henv in Hauth.
      destruct t as [tok|]; cbn in Hauth; [| done].
      destruct (String.eqb_spec tok "") as [-> | Hne]; cbn in Hauth; [done |].
      case_bool_decide; [eauto | done].
    + exfalso.
      destruct Hr as [(req & W & Hr) | (req & W & Hr)];
        [unfold routeVerifyCreate2 in Hr | unfold routeSessionVerifyCreate2 in Hr];
        revert Hr; run_handler; by rewrite Hauth.
Qed.

(** X13: the solc-json submission of one file never verifies and never
    stores.  A file that is not JSON gives the [BadRequestError] that names
    its path, a failing compilation gives what the library threw, and either
    way the session and the log are as before.  Otherwise the compiled
    metadata and sources are saved, the contracts are regrouped once if and
    only if a file is new, and the answer is the snapshot of the session. *)
Theorem addInputSolcJsonFile_outcomes :
  ∀ compilerVersion inputFile W,
    let out := addInputSolcJsonFile compilerVersion inputFile W in
    (jsonParse (bufferToUtf8 (buffer inputFile)) = None →
       out = (Thrown (BadRequestError
                        ("Couldn't parse JSON " ++ pb_path inputFile
                           ++ ". Make sure the contents of the file are syntaxed correctly.")),
              W))
    ∧ (∀ solcJson e,
         jsonParse (bufferToUtf8 (buffer inputFile)) = Some solcJson →
         getAllMetadataAndSourcesFromSolcJson solcJson compilerVersion = Thrown e →
         out = (Thrown e, W))
    ∧ (∀ solcJson metadataAndSources,
         jsonParse (bufferToUtf8 (buffer inputFile)) = Some solcJson →
         getAllMetadataAndSourcesFromSolcJson solcJson compilerVersion
           = Returned metadataAndSources →
         let saved := saveFiles (toPathContent <$> metadataAndSources) (session W) in
         out.1 = Returned (SessionJSON (getSessionJSON (session out.2)))
         ∧ out.2 = (if decide (saved.1 = 0)
                    then mkWorld saved.2 (calls W)
                    else mkWorld (groupContracts saved.2)
                           (calls W ++ [CallCheckContractsInSession])))
    ∧ (newCalls W out.2 = [] ∨ newCalls W out.2 = [CallCheckContractsInSession]).
Proof.
  intros v f W out. subst out. unfold addInputSolcJsonFile. run_handler.
  destruct (jsonParse _) as [j|]; cbn.
  2: { split_and!; [done | done | done |]. left. apply newCalls_refl. }
  destruct (getAllMetadataAndSourcesFromSolcJson j v) as [fs|e0] eqn:Hg; cbn.
  2: { split_and!; [done | | |].
       - intros ? ? [= <-] Hg'. rewrite Hg in Hg'. by inversion Hg'.
       - intros ? ? [= <-] Hg'. by rewrite Hg in Hg'.
       - left. apply newCalls_refl. }
  case_decide as Hn; cbn.
  - split_and!; [done | | |].
    + intros ? ? [= <-] Hg'. by rewrite Hg in Hg'.
    + intros ? fs' [= <-] Hg'. rewrite Hg in Hg'. inversion Hg'; subst fs'.
      by rewrite decide_True.
    + left. apply newCalls_eq. by rewrite app_nil_r.
  - split_and!; [done | | |].
    + intros ? ? [= <-] Hg'. by rewrite Hg in Hg'.
    + intros ? fs' [= <-] Hg'. rewrite Hg in Hg'. inversion Hg'; subst fs'.
      by rewrite decide_False.
    + right. by apply newCalls_eq.
Qed.

(** X15: the outcomes of the session import.  It throws before touching
    the session when the request is invalid or the block explorer or the
    compiler fails; it throws the "didn't add any new file" error after
    saving, without regrouping; it throws the "Unknown error" client error
    after the files were saved and the contracts regrouped, when the
    regrouped session has no registry, and these changes stay.  When it
    answers, it has regrouped once, then handed its batch to the
    orchestrator, and every later call is a [storeMatch]. *)
Theorem sessionVerifyFromEtherscan_outcomes :
  ∀ req W,
    let out := sessionVerifyFromEtherscan req W in
    (∀ e, out.1 = Thrown e →
       (out.2 = W
        ∧ ((∃ msg, e = ValidationError msg)
           ∨ processRequestFromEtherscan (body_chainId req) (body_address req)
             = Thrown e
           ∨ (∃ er, getMetadataFromCompiler (compilerVersion er)
                      (solcJsonInput er) (contractName er) = Thrown e)))
       ∨ (∃ er metadata,
            let saved :=
              saveFiles (importPathContents (solcJsonInput er) metadata)
                (session W) in
            (e = BadRequestError "The contract didn't add any new file"
             ∧ saved.1 = 0
             ∧ out.2 = mkWorld saved.2 (calls W))
            ∨ (e = BadRequestError
                     "Unknown error during the Etherscan verification process"
               ∧ saved.1 ≠ 0
               ∧ contractWrappers (groupContracts saved.2) = None
               ∧ out.2 = mkWorld (groupContracts saved.2)
                           (calls W ++ [CallCheckContractsInSession]))))
    ∧ (∀ r, out.1 = Returned r →
         ∃ batch stores,
           newCalls W out.2
           = CallCheckContractsInSession
               :: CallVerifyContractsInSession batch :: stores
           ∧ Forall isStoreCall stores).
Proof.
  intros req W out. subst out. unfold sessionVerifyFromEtherscan. run_handler.
  destruct (legacy_validation req); cbn.
  2: { split; [| done]. intros e [= <-]. left. split; [done |]. eauto. }
  destruct (processRequestFromEtherscan _ _) as [er|e0]; cbn.
  2: { split; [| done]. intros e [= <-]. left. split; [done |]. eauto. }
  destruct (getMetadataFromCompiler _ _ _) as [md|e0] eqn:Hmd; cbn.
  2: { split; [| done]. intros e [= <-]. left. split; [done |]. eauto 6. }
  case_decide as Hn; cbn.
  { split; [| done]. intros e [= <-]. right. exists er, md. left. by split_and!. }
  destruct (contractWrappers (groupContracts _)) as [cw|] eqn:Hcw; cbn.
  2: { split; [| done]. intros e [= <-]. right. exists er, md. right.
       by split_and!. }
  rewrite verifyContractsInSession_returns. cbn. split; [done |].
  intros r _. eexists _, _. split; [| apply storesOf_stores].
  apply newCalls_eq. rewrite verifyContractsInSession_calls. cbn.
  by rewrite <- app_assoc.
Qed.

(** ** The solc-json submission, all files *)

Lemma addInputSolcJsonFile_run v f W :
  (∃ e, addInputSolcJsonFile v f W = (Thrown e, W))
  ∨ ∃ W1, addInputSolcJsonFile v f W
          = (Returned (SessionJSON (getSessionJSON (session W1))), W1)
          ∧ (calls W1 = calls W
             ∨ calls W1 = (calls W ++ [CallCheckContractsInSession])%list).
Proof.
  unfold addInputSolcJsonFile. run_handler.
  destruct (jsonParse _) as [j|]; cbn; [| left; eauto].
  destruct (getAllMetadataAndSourcesFromSolcJson j v) as [fs|e]; cbn;
    [| left; eauto].
  right. case_decide; cbn;
    match goal with |- ∃ W1, (_, ?X) = _ ∧ _ => exists X end;
    (split; [reflexivity |]); cbn; eauto.
Qed.

Lemma addInputSolcJsonFiles_cons v f rest sent W :
  addInputSolcJsonFiles v (f :: rest) sent W
  = match addInputSolcJsonFile v f W with
    | (Returned body, W1) =>
        match resSend sent body with
        | Returned _ => addInputSolcJsonFiles v rest (sent ++ [body])%list W1
        | Thrown e => (Thrown e, W1)
        end
    | (Thrown e, W1) => (Thrown e, W1)
    end.
Proof.
  cbn [addInputSolcJsonFiles]. unfold mbind, handler_bind, await.
  destruct (addInputSolcJsonFile v f W) as [[body|e] W1]; [| done].
  by destruct (resSend sent body).
Qed.

Lemma addInputSolcJsonFiles_app v pre rest sent W :
  addInputSolcJsonFiles v (pre ++ rest) sent W
  = match addInputSolcJsonFiles v pre sent W with
    | (Returned sent', W') => addInputSolcJsonFiles v rest sent' W'
    | (Thrown e, W') => (Thrown e, W')
    end.
Proof.
  revert sent W. induction pre as [|f pre IH]; intros sent W; [done |].
  rewrite <- app_comm_cons, !addInputSolcJsonFiles_cons.
  destruct (addInputSolcJsonFile v f W) as [[body|e] W1]; [| done].
  destruct (resSend sent body); [apply IH | done].
Qed.

Lemma addInputSolcJsonFiles_calls v fs sent W :
  ∃ n, (n ≤ length fs)%nat
       ∧ calls (addInputSolcJsonFiles v fs sent W).2
         = (calls W ++ replicate n CallCheckContractsInSession)%list.
Proof.
  revert sent W. induction fs as [|f fs IH]; intros sent W.
  - exists 0. split; [done |]. cbn. by rewrite app_nil_r.
  - rewrite addInputSolcJsonFiles_cons.
    destruct (addInputSolcJsonFile_run v f W)
      as [(e & ->) | (W1 & -> & Hcalls)].
    { exists 0. split; [cbn; lia |]. cbn. by rewrite app_nil_r. }
    assert (∃ k, (k ≤ 1)%nat
                 ∧ calls W1
                   = (calls W ++ replicate k CallCheckContractsInSession)%list)
      as (k & Hk & HW1).
    { destruct Hcalls as [-> | ->]; [exists 0 | exists 1];
        (split; [lia |]); cbn; [by rewrite app_nil_r | done]. }
    destruct (resSend sent _).
    + destruct (IH (sent ++ [SessionJSON (getSessionJSON (session W1))])%list W1)
        as (n & Hn & ->).
      exists (k + n). split; [cbn; lia |].
      by rewrite HW1, <- app_assoc, replicate_add.
    + exists k. split; [cbn; lia | done].
Qed.

Lemma addInputSolcJsonFiles_sent v fs sent W sent' :
  (addInputSolcJsonFiles v fs sent W).1 = Returned sent' →
  ∃ new, sent' = (sent ++ new)%list ∧ length new = length fs
         ∧ ∀ body, last new = Some body →
             body = SessionJSON
                      (getSessionJSON
                         (session (addInputSolcJsonFiles v fs sent W).2)).
Proof.
  revert sent W. induction fs as [|f fs IH]; intros sent W.
  - cbn. intros [= <-]. exists []. by rewrite app_nil_r.
  - rewrite addInputSolcJsonFiles_cons.
    destruct (addInputSolcJsonFile_run v f W)
      as [(e & ->) | (W1 & -> & _)]; [done |].
    set (body1 := SessionJSON (getSessionJSON (session W1))).
    destruct (resSend sent body1); [| done].
    intros Hret. destruct (IH _ _ Hret) as (new & -> & Hlen & Hlast).
    exists (body1 :: new). split_and!; [by rewrite <- app_assoc | by cbn; f_equal |].
    intros body. destruct new as [|b new].
    + destruct fs; [| done]. cbn. by intros [= <-].
    + rewrite last_cons_cons. apply Hlast.
Qed.

(** X14: the solc-json submission, over all its files.  An invalid request
    and a request without files throw a [ValidationError] before the session
    is touched.  The handler never calls the orchestrator or the store: the
    calls it adds are calls of [checkContractsInSession], at most one per
    input file.  If it returns, it has sent one body per input file, and the
    last one is the snapshot of the session it leaves.  The files are
    handled in order and nothing is undone: when a file is not JSON, or the
    send after a file is refused, the handler throws at that point and the
    session keeps what the earlier files (and, for a refused send, this
    file) have put in it. *)
Theorem addInputSolcJsonEndpoint_outcomes :
  ∀ req W,
    let out := addInputSolcJsonEndpoint req W in
    (∀ e es, files_validation (solc_request req) = e :: es →
       out = (Thrown (ValidationError e), W))
    ∧ (files_validation (solc_request req) = [] →
       extractFiles (solc_request req) = None →
       out = (Thrown (ValidationError "No files found"), W))
    ∧ (∀ inputFiles,
         extractFiles (solc_request req) = Some inputFiles →
         ∃ n, (n ≤ length inputFiles)%nat
              ∧ newCalls W out.2 = replicate n CallCheckContractsInSession)
    ∧ (∀ inputFiles sent,
         files_validation (solc_request req) = [] →
         extractFiles (solc_request req) = Some inputFiles →
         out.1 = Returned sent →
         length sent = length inputFiles
         ∧ ∀ body, last sent = Some body →
             body = SessionJSON (getSessionJSON (session out.2)))
    ∧ (∀ pre inputFile post sent W',
         files_validation (solc_request req) = [] →
         extractFiles (solc_request req) = Some (pre ++ inputFile :: post)%list →
         addInputSolcJsonFiles (solc_compilerVersion req) pre [] W
           = (Returned sent, W') →
         (jsonParse (bufferToUtf8 (buffer inputFile)) = None →
            out = (Thrown (BadRequestError
                             ("Couldn't parse JSON " ++ pb_path inputFile
                                ++ ". Make sure the contents of the file are syntaxed correctly.")),
                   W'))
         ∧ (∀ body W'' e,
              addInputSolcJsonFile (solc_compilerVersion req) inputFile W'
                = (Returned body, W'') →
              resSend sent body = Thrown e →
              out = (Thrown e, W''))).
Proof.
  intros req W out. subst out. unfold addInputSolcJsonEndpoint. run_handler.
  split_and!.
  - by intros e es ->.
  - by intros -> ->.
  - intros inputFiles ->.
    destruct (files_validation (solc_request req)); cbn.
    + destruct (addInputSolcJsonFiles_calls (solc_compilerVersion req)
                  inputFiles [] W) as (n & Hn & Hcalls).
      exists n. split; [done |]. by apply newCalls_eq.
    + exists 0. split; [lia |]. apply newCalls_refl.
  - intros inputFiles sent -> -> Hret. cbn in Hret |- *.
    destruct (addInputSolcJsonFiles_sent _ _ _ _ _ Hret) as (new & -> & Hlen & Hlast).
    done.
  - intros pre f post sent W' -> -> Hpre. cbn.
    rewrite addInputSolcJsonFiles_app, Hpre, addInputSolcJsonFiles_cons.
    split.
    + intros Hparse. unfold addInputSolcJsonFile. by rewrite Hparse.
    + intros body W'' e -> Hsend. by rewrite Hsend.
Qed.

End RouteProperties.

(** * The handlers on the sample sessions *)

#[local] Existing Instances sampleEngine sampleLib sampleUtil.

Lemma verifiable_selector_builds_batch_witness :
  CallVerifyContractsInSession {["c1"]}
    ∈ newCalls worldVerified
        (verifyContractsInSessionEndpoint [retarget] worldVerified).2
  ∧ "c1" ∈ ({["c1"]} : gset string)
  ∧ ∃ rc w, rc ∈ [retarget] ∧ verificationId rc = "c1"
            ∧ registry (session worldVerified) !! "c1" = Some w
            ∧ isVerifiable (assignReceived rc w) = true.
Proof.
  assert (H1 : CallVerifyContractsInSession {["c1"]}
                 ∈ newCalls worldVerified
                     (verifyContractsInSessionEndpoint [retarget] worldVerified).2)
    by (vm_compute; left).
  assert (H2 : "c1" ∈ ({["c1"]} : gset string)) by (by apply elem_of_singleton).
  split_and!; [exact H1 | exact H2 |].
  exact (proj1 (proj2 verifiable_selector_builds_batch) _ _ _ _ H1 H2).
Defined.

(** C1 fails as stated: the batch handed to the orchestrator can hold
    wrappers that do not satisfy the selector.  A wrapper named twice by a
    session verify request is put in the batch by the first received
    contract and loses its target by the second; and a file upload hands
    over the whole registry, here two wrappers without a target, one of them
    with a missing source.  (The orchestrator leaves such wrappers as they
    are.) *)
Lemma batch_holds_unverifiable_wrapper :
  (CallVerifyContractsInSession {["c1"]}
     ∈ newCalls worldVerified
         (verifyContractsInSessionEndpoint [retarget; untarget] worldVerified).2
   ∧ ∃ w', registry
             (session
                (verifyContractsInSessionEndpoint [retarget; untarget]
                   worldVerified).2) !! "c1" = Some w'
           ∧ isVerifiable w' = false
           ∧ w' = setTarget None None wrapperVerified)
  ∧ (CallVerifyContractsInSession ({["c1"]} ∪ {["c2"]})
       ∈ newCalls worldIncomplete
           (addInputFilesEndpoint resubmission worldIncomplete).2
     ∧ registry (session worldIncomplete) !! "c1" = Some wrapperIncomplete
     ∧ registry (session worldIncomplete) !! "c2" = Some wrapperFailed
     ∧ registry
         (session (addInputFilesEndpoint resubmission worldIncomplete).2)
       = registry (session worldIncomplete)
     ∧ isVerifiable wrapperIncomplete = false
     ∧ isVerifiable wrapperFailed = false).
Proof.
  split.
  - split; [vm_compute; left |].
    eexists. split; [vm_compute; reflexivity |]. by vm_compute.
  - split_and!; try (vm_compute; reflexivity).
    vm_compute. right. left.
Qed.

Lemma no_new_files_skips_grouping_and_verification_witness :
  (files_validation resubmission = []
   ∧ requestedFiles resubmission
     = Returned (Some [mkPathBuffer "A.sol" "contract A {}"])
   ∧ (saveFiles (toPathContent <$> [mkPathBuffer "A.sol" "contract A {}"])
        (session worldStored)).1 = 0
   ∧ let out := addInputFilesEndpoint resubmission worldStored in
     filter isGroupingOrVerification (newCalls worldStored out.2) = []
     ∧ contractWrappers (session out.2) = contractWrappers (session worldStored)
     ∧ out = (Returned (SessionJSON (getSessionJSON (session worldStored))),
              worldStored))
  ∧ (contract_validation contractRequest = []
     ∧ getBytecode (contract_chainId contractRequest)
         (contract_address contractRequest) = Returned "0x60"
     ∧ bytecodeDecode "0x60" = Returned (Some "QmSample")
     ∧ "QmSample" ≠ ""
     ∧ performFetch (getIpfsGateway ++ "QmSample") = Returned (Some "{}")
     ∧ "{}" ≠ ""
     ∧ (saveFiles [mkPathContent metadataFileName (stringToBase64 "{}")]
          (session worldImported)).1 = 0
     ∧ let out := addInputContractEndpoint contractRequest worldImported in
       filter isGroupingOrVerification (newCalls worldImported out.2) = []
       ∧ contractWrappers (session out.2)
         = contractWrappers (session worldImported)
       ∧ out = (Returned (SessionJSON (getSessionJSON (session worldImported))),
                worldImported)).
Proof.
  assert (F1 : files_validation resubmission = []) by reflexivity.
  assert (F2 : requestedFiles resubmission
               = Returned (Some [mkPathBuffer "A.sol" "contract A {}"]))
    by reflexivity.
  assert (F3 : (saveFiles (toPathContent <$> [mkPathBuffer "A.sol" "contract A {}"])
                  (session worldStored)).1 = 0) by (vm_compute; reflexivity).
  assert (C1 : contract_validation contractRequest = []) by reflexivity.
  assert (C2 : getBytecode (contract_chainId contractRequest)
                 (contract_address contractRequest) = Returned "0x60")
    by reflexivity.
  assert (C3 : bytecodeDecode "0x60" = Returned (Some "QmSample")) by reflexivity.
  assert (C4 : "QmSample" ≠ "") by discriminate.
  assert (C5 : performFetch (getIpfsGateway ++ "QmSample") = Returned (Some "{}"))
    by reflexivity.
  assert (C6 : "{}" ≠ "") by discriminate.
  assert (C7 : (saveFiles [mkPathContent metadataFileName (stringToBase64 "{}")]
                  (session worldImported)).1 = 0) by (vm_compute; reflexivity).
  split.
  - split_and!; [exact F1 | exact F2 | exact F3 |].
    exact (proj1 no_new_files_skips_grouping_and_verification
             resubmission worldStored _ F1 F2 F3).
  - split_and!; [exact C1 | exact C2 | exact C3 | exact C4 | exact C5
                 | exact C6 | exact C7 |].
    exact (proj2 no_new_files_skips_grouping_and_verification
             contractRequest worldImported _ _ _ C1 C2 C3 C4 C5 C6 C7).
Defined.

Lemma import_without_new_files_is_bad_request_witness :
  legacy_validation importRequest = []
  ∧ processRequestFromEtherscan (body_chainId importRequest)
      (body_address importRequest)
    = Returned (mkEtherscanResult "0.8.19"
                  (mkSolcJsonInput {["A.sol" := "contract A {}"]}) "A")
  ∧ getMetadataFromCompiler "0.8.19"
      (mkSolcJsonInput {["A.sol" := "contract A {}"]}) "A" = Returned "{}"
  ∧ (saveFiles
       (importPathContents (mkSolcJsonInput {["A.sol" := "contract A {}"]}) "{}")
       (session worldImported)).1 = 0
  ∧ let out := sessionVerifyFromEtherscan importRequest worldImported in
    out.1 = Thrown (BadRequestError "The contract didn't add any new file")
    ∧ newCalls worldImported out.2 = []
    ∧ out.2 = worldImported.
Proof.
  assert (H1 : legacy_validation importRequest = []) by reflexivity.
  assert (H2 : processRequestFromEtherscan (body_chainId importRequest)
                 (body_address importRequest)
               = Returned (mkEtherscanResult "0.8.19"
                             (mkSolcJsonInput {["A.sol" := "contract A {}"]}) "A"))
    by reflexivity.
  assert (H3 : getMetadataFromCompiler "0.8.19"
                 (mkSolcJsonInput {["A.sol" := "contract A {}"]}) "A"
               = Returned "{}") by reflexivity.
  assert (H4 : (saveFiles
                  (importPathContents
                     (mkSolcJsonInput {["A.sol" := "contract A {}"]}) "{}")
                  (session worldImported)).1 = 0) by (vm_compute; reflexivity).
  split_and!; [exact H1 | exact H2 | exact H3 | exact H4 |].
  exact (import_without_new_files_is_bad_request
           importRequest worldImported _ _ H1 H2 H3 H4).
Defined.

(** The import without a session on chain ["5"], where the sample engine
    finds no match: the non-match is stored all the same. *)
Lemma verifyFromEtherscan_stores_every_match_witness :
  let input := mkSolcJsonInput {["A.sol" := "contract A {}"]} in
  let nonMatch := mkMatch "0xaaa" match_false (Some "bytecode mismatch") None in
  let checkedContract :=
    newCheckedContract "{}" (getMappedSourcesFromJsonInput input) [] [] in
  legacy_validation importRequest = []
  ∧ processRequestFromEtherscan (body_chain importRequest)
      (body_address importRequest)
    = Returned (mkEtherscanResult "0.8.19" input "A")
  ∧ getMetadataFromCompiler "0.8.19" input "A" = Returned "{}"
  ∧ verifyDeployed checkedContract (body_chain importRequest)
      (body_address importRequest) None = Returned nonMatch
  ∧ let out := verifyFromEtherscan importRequest worldVerified in
    out.1 = Returned (MatchResult [nonMatch])
    ∧ newCalls worldVerified out.2 = [CallStoreMatch checkedContract nonMatch]
    ∧ session out.2 = session worldVerified.
Proof.
  intros input nonMatch checkedContract.
  assert (H1 : legacy_validation importRequest = []) by reflexivity.
  assert (H2 : processRequestFromEtherscan (body_chain importRequest)
                 (body_address importRequest)
               = Returned (mkEtherscanResult "0.8.19" input "A")) by reflexivity.
  assert (H3 : getMetadataFromCompiler "0.8.19" input "A" = Returned "{}")
    by reflexivity.
  assert (H4 : verifyDeployed checkedContract (body_chain importRequest)
                 (body_address importRequest) None = Returned nonMatch)
    by reflexivity.
  split_and!; [exact H1 | exact H2 | exact H3 | exact H4 |].
  exact (verifyFromEtherscan_stores_every_match
           importRequest worldVerified _ _ _ H1 H2 H3 H4).
Defined.

(** A CREATE2 claim of ["0xffff"] where the recomputed address is ["0xc2"]. *)
Lemma create2_mismatch_is_not_stored_witness :
  let mismatch := mkMatch "0xc2" match_false (Some "address mismatch") None in
  ((verifyCreate2 create2Mismatch worldVerified).1
     = Returned (MatchResult [mismatch])
   ∧ truthyStatus (match_status mismatch) = false
   ∧ newCalls worldVerified (verifyCreate2 create2Mismatch worldVerified).2 = []
   ∧ persisted (verifyCreate2 create2Mismatch worldVerified).2
     = persisted worldVerified)
  ∧ (registry (session worldVerified) !! s_verificationId sessionCreate2Mismatch
       = Some wrapperVerified
     ∧ libVerifyCreate2 (checkedContractOf wrapperVerified)
         (s_deployerAddress sessionCreate2Mismatch)
         (s_salt sessionCreate2Mismatch)
         (s_create2Address sessionCreate2Mismatch)
         (s_abiEncodedConstructorArguments sessionCreate2Mismatch)
       = Returned mismatch
     ∧ newCalls worldVerified
         (sessionVerifyCreate2 sessionCreate2Mismatch worldVerified).2 = []
     ∧ persisted (sessionVerifyCreate2 sessionCreate2Mismatch worldVerified).2
       = persisted worldVerified).
Proof.
  intros mismatch.
  assert (H1 : (verifyCreate2 create2Mismatch worldVerified).1
               = Returned (MatchResult [mismatch])) by (vm_compute; reflexivity).
  assert (H2 : truthyStatus (match_status mismatch) = false) by reflexivity.
  assert (H3 : registry (session worldVerified)
                 !! s_verificationId sessionCreate2Mismatch
               = Some wrapperVerified) by (vm_compute; reflexivity).
  assert (H4 : libVerifyCreate2 (checkedContractOf wrapperVerified)
                 (s_deployerAddress sessionCreate2Mismatch)
                 (s_salt sessionCreate2Mismatch)
                 (s_create2Address sessionCreate2Mismatch)
                 (s_abiEncodedConstructorArguments sessionCreate2Mismatch)
               = Returned mismatch) by reflexivity.
  split.
  - split_and!; [exact H1 | exact H2 | |];
      apply (proj1 create2_mismatch_is_not_stored
               create2Mismatch worldVerified mismatch H1 H2).
  - split_and!; [exact H3 | exact H4 | |];
      apply (proj1 (proj2 (proj2 create2_mismatch_is_not_stored))
               sessionCreate2Mismatch worldVerified _ _ H3 H4 H2).
Defined.

(** The user's target ["0xaaa"] on chain ["1"] is replaced by the match's
    address on chain ["0"], here after a mismatch. *)
Lemma sessionVerifyCreate2_overwrites_target_witness :
  let mismatch := mkMatch "0xc2" match_false (Some "address mismatch") None in
  registry (session worldVerified) !! s_verificationId sessionCreate2Mismatch
    = Some wrapperVerified
  ∧ libVerifyCreate2 (checkedContractOf wrapperVerified)
      (s_deployerAddress sessionCreate2Mismatch)
      (s_salt sessionCreate2Mismatch)
      (s_create2Address sessionCreate2Mismatch)
      (s_abiEncodedConstructorArguments sessionCreate2Mismatch)
    = Returned mismatch
  ∧ ∃ w', registry
            (session (sessionVerifyCreate2 sessionCreate2Mismatch worldVerified).2)
            !! s_verificationId sessionCreate2Mismatch = Some w'
          ∧ chainId w' = Some "0"
          ∧ address w' = Some (match_address mismatch).
Proof.
  intros mismatch.
  assert (H1 : registry (session worldVerified)
                 !! s_verificationId sessionCreate2Mismatch
               = Some wrapperVerified) by (vm_compute; reflexivity).
  assert (H2 : libVerifyCreate2 (checkedContractOf wrapperVerified)
                 (s_deployerAddress sessionCreate2Mismatch)
                 (s_salt sessionCreate2Mismatch)
                 (s_create2Address sessionCreate2Mismatch)
                 (s_abiEncodedConstructorArguments sessionCreate2Mismatch)
               = Returned mismatch) by reflexivity.
  split_and!; [exact H1 | exact H2 |].
  exact (sessionVerifyCreate2_overwrites_target
           sessionCreate2Mismatch worldVerified _ _ H1 H2).
Defined.

Lemma sessionPrecompileContract_frame_witness :
  registry (session worldVerified) !! "c1" = Some wrapperVerified
  ∧ recompile
      (mkCheckedContract (metadata (contract wrapperVerified))
         (solidity (contract wrapperVerified))
         (missing (contract wrapperVerified))
         (invalid (contract wrapperVerified)) None) = Returned "0x6080"
  ∧ ∃ w', registry (session (sessionPrecompileContract "c1" worldVerified).2)
            !! "c1" = Some w'
          ∧ creationBytecode (contract w') = Some "0x6080".
Proof.
  assert (H1 : registry (session worldVerified) !! "c1" = Some wrapperVerified)
    by (vm_compute; reflexivity).
  assert (H2 : recompile
                 (mkCheckedContract (metadata (contract wrapperVerified))
                    (solidity (contract wrapperVerified))
                    (missing (contract wrapperVerified))
                    (invalid (contract wrapperVerified)) None)
               = Returned "0x6080") by reflexivity.
  split_and!; [exact H1 | exact H2 |].
  exact (proj1 (proj2 (proj2 (proj2 (proj2
           (sessionPrecompileContract_frame "c1" worldVerified)))))
           _ _ H1 H2).
Defined.

(** C3 fails as stated: a wrapper with a successful match, named again by the
    session verify endpoint, takes the received address and chainId. *)
Lemma verified_wrapper_is_retargeted :
  registry (session worldVerified) !! "c1" = Some wrapperVerified
  ∧ status wrapperVerified = valid_runtime
  ∧ address wrapperVerified = Some "0xaaa"
  ∧ chainId wrapperVerified = Some "1"
  ∧ ∃ w', registry
            (session (verifyContractsInSessionEndpoint [retarget] worldVerified).2)
            !! "c1" = Some w'
          ∧ address w' = Some "0xbbb"
          ∧ chainId w' = Some "5"
          ∧ address w' ≠ address wrapperVerified
          ∧ chainId w' ≠ chainId wrapperVerified.
Proof.
  split_and!; [by vm_compute | done | done | done |].
  eexists. split; [vm_compute; reflexivity |]. by split_and!.
Qed.

Lemma wrapper_target_reassignment_witness :
  (verificationId retarget ∉ (verificationId <$> ([] : list SendableContract)))
  ∧ registry (session worldVerified) !! verificationId retarget
    = Some wrapperVerified
  ∧ ∃ w', registry
            (session
               (verifyContractsInSessionEndpoint ([] ++ retarget :: [])
                  worldVerified).2) !! verificationId retarget = Some w'
          ∧ address w' = sc_address retarget
          ∧ chainId w' = sc_chainId retarget.
Proof.
  assert (H1 : verificationId retarget
               ∉ verificationId <$> ([] : list SendableContract))
    by apply not_elem_of_nil.
  assert (H2 : registry (session worldVerified) !! verificationId retarget
               = Some wrapperVerified) by (vm_compute; reflexivity).
  split_and!; [exact H1 | exact H2 |].
  exact (proj1 wrapper_target_reassignment
           [] retarget [] worldVerified _ H1 H2).
Defined.

(** C5 fails as stated: the wrapper ["c1"] fails the selector (a source is
    missing), yet its view in the response carries the address and chainId
    just received, not the view it had; and the wrapper ["c2"], which fails
    the selector too, is reported with the status [error] of an earlier
    attempt, not [pending]. *)
Lemma unverifiable_wrapper_is_reported_changed :
  let out := verifyContractsInSessionEndpoint [retarget] worldIncomplete in
  registry (session worldIncomplete) !! "c1" = Some wrapperIncomplete
  ∧ registry (session worldIncomplete) !! "c2" = Some wrapperFailed
  ∧ ∃ w1' w2',
      registry (session out.2) !! "c1" = Some w1'
      ∧ isVerifiable w1' = false
      ∧ out.1 = Returned (SessionJSON (getSessionJSON (session out.2)))
      ∧ wrapperView "c1" w1' ∈ contracts (getSessionJSON (session out.2))
      ∧ wrapperView "c1" w1' ≠ wrapperView "c1" wrapperIncomplete
      ∧ view_address (wrapperView "c1" w1') = Some "0xbbb"
      ∧ registry (session out.2) !! "c2" = Some w2'
      ∧ isVerifiable w2' = false
      ∧ status w2' = error.
Proof.
  intros out. split_and!; [by vm_compute | by vm_compute |].
  exists (setTarget (Some "0xbbb") (Some "5") wrapperIncomplete).
  exists wrapperFailed.
  assert (Hc1 : registry (session out.2) !! "c1"
                = Some (setTarget (Some "0xbbb") (Some "5") wrapperIncomplete))
    by (vm_compute; reflexivity).
  split_and!; try done; try by vm_compute.
  apply getSessionJSON_contracts. eauto.
Qed.

Lemma session_verify_returns_whole_registry_witness :
  noWrappers (session worldIncomplete) = false
  ∧ let out := verifyContractsInSessionEndpoint [retarget] worldIncomplete in
    out.1 = Returned (SessionJSON (getSessionJSON (session out.2)))
    ∧ dom (registry (session out.2)) = dom (registry (session worldIncomplete)).
Proof.
  assert (H1 : noWrappers (session worldIncomplete) = false)
    by (vm_compute; reflexivity).
  split; [exact H1 |].
  pose proof (session_verify_returns_whole_registry [retarget] worldIncomplete H1)
    as (Hr & Hd & _).
  exact (conj Hr Hd).
Defined.

(** The engine fails for ["k"] and finds a runtime match for ["j"]. *)
Lemma batch_failure_is_isolated_witness :
  "k" ∈ ({["k"; "j"]} : gset string)
  ∧ registry (session worldBatch) !! "k" = Some wrapperUnreachable
  ∧ isVerifiable wrapperUnreachable = true
  ∧ callEngine wrapperUnreachable = Some (Thrown (GenericError "network error"))
  ∧ let out := verifyContractsInSession {["k"; "j"]} worldBatch in
    out.1 = Returned tt
    ∧ dom (registry (session out.2)) = dom (registry (session worldBatch))
    ∧ ∃ wk', registry (session out.2) !! "k" = Some wk'
             ∧ status wk' = error
             ∧ statusMessage wk' = Some "network error".
Proof.
  assert (H1 : "k" ∈ ({["k"; "j"]} : gset string)) by set_solver.
  assert (H2 : registry (session worldBatch) !! "k" = Some wrapperUnreachable)
    by (vm_compute; reflexivity).
  assert (H3 : isVerifiable wrapperUnreachable = true) by (vm_compute; reflexivity).
  assert (H4 : callEngine wrapperUnreachable
               = Some (Thrown (GenericError "network error"))) by reflexivity.
  split_and!; [exact H1 | exact H2 | exact H3 | exact H4 |].
  pose proof (batch_failure_is_isolated _ worldBatch "k" _ _ H1 H2 H3 H4)
    as (Hr & Hd & Hk & _).
  exact (conj Hr (conj Hd Hk)).
Defined.

(** On the same batch the wrapper ["j"] completes with its own verdict and
    its match is stored. *)
Lemma batch_other_wrapper_completes :
  ∃ wj', registry
           (session (verifyContractsInSession {["k"; "j"]} worldBatch).2)
           !! "j" = Some wj'
         ∧ status wj' = valid_runtime
         ∧ isStoreCall <$> newCalls worldBatch
                             (verifyContractsInSession {["k"; "j"]} worldBatch).2
           = [false; true].
Proof. eexists. split_and!; by vm_compute. Qed.

(** * Further runs on the sample sessions *)

(** A CREATE2 claim that does not match marks the verified wrapper [error]
    and erases its storage timestamp. *)
Lemma sessionVerifyCreate2_effect_witness :
  let mismatch := mkMatch "0xc2" match_false (Some "address mismatch") None in
  registry (session worldVerified) !! s_verificationId sessionCreate2Mismatch
    = Some wrapperVerified
  ∧ libVerifyCreate2 (checkedContractOf wrapperVerified)
      (s_deployerAddress sessionCreate2Mismatch)
      (s_salt sessionCreate2Mismatch)
      (s_create2Address sessionCreate2Mismatch)
      (s_abiEncodedConstructorArguments sessionCreate2Mismatch)
    = Returned mismatch
  ∧ let out := sessionVerifyCreate2 sessionCreate2Mismatch worldVerified in
    (∃ w', registry (session out.2) !! s_verificationId sessionCreate2Mismatch
             = Some w'
           ∧ status w' = error
           ∧ statusMessage w' = Some "address mismatch"
           ∧ storageTimestamp w' = None
           ∧ contract w' = contract wrapperVerified
           ∧ creatorTxHash w' = creatorTxHash wrapperVerified)
    ∧ newCalls worldVerified out.2 = [].
Proof.
  intros mismatch.
  assert (H1 : registry (session worldVerified)
                 !! s_verificationId sessionCreate2Mismatch
               = Some wrapperVerified) by (vm_compute; reflexivity).
  assert (H2 : libVerifyCreate2 (checkedContractOf wrapperVerified)
                 (s_deployerAddress sessionCreate2Mismatch)
                 (s_salt sessionCreate2Mismatch)
                 (s_create2Address sessionCreate2Mismatch)
                 (s_abiEncodedConstructorArguments sessionCreate2Mismatch)
               = Returned mismatch) by reflexivity.
  split_and!; [exact H1 | exact H2 |].
  pose proof (sessionVerifyCreate2_effect
                sessionCreate2Mismatch worldVerified _ _ H1 H2)
    as (_ & Hw & _ & _ & Hc).
  exact (conj Hw Hc).
Defined.

(** A first upload into a session that has no file yet. *)
Lemma new_files_regroup_then_verify_all_witness :
  files_validation resubmission = []
  ∧ requestedFiles resubmission
    = Returned (Some [mkPathBuffer "A.sol" "contract A {}"])
  ∧ (saveFiles (toPathContent <$> [mkPathBuffer "A.sol" "contract A {}"])
       (session worldVerified)).1 ≠ 0
  ∧ let saved :=
      saveFiles (toPathContent <$> [mkPathBuffer "A.sol" "contract A {}"])
        (session worldVerified) in
    let out := addInputFilesEndpoint resubmission worldVerified in
    out.1 = Returned (SessionJSON (getSessionJSON (session out.2)))
    ∧ ∃ stores,
        newCalls worldVerified out.2
        = CallCheckContractsInSession
            :: CallVerifyContractsInSession
                 (dom (registry (groupContracts saved.2)))
            :: stores
        ∧ Forall isStoreCall stores.
Proof.
  assert (H1 : files_validation resubmission = []) by reflexivity.
  assert (H2 : requestedFiles resubmission
               = Returned (Some [mkPathBuffer "A.sol" "contract A {}"]))
    by reflexivity.
  assert (H3 : (saveFiles (toPathContent <$> [mkPathBuffer "A.sol" "contract A {}"])
                  (session worldVerified)).1 ≠ 0) by (vm_compute; discriminate).
  split_and!; [exact H1 | exact H2 | exact H3 |].
  exact (proj1 new_files_regroup_then_verify_all
           resubmission worldVerified _ H1 H2 H3).
Defined.

(** An identifier the session does not hold, followed by one it holds. *)
Lemma session_verify_ignores_unknown_ids_witness :
  (∀ rc, rc ∈ [strayContract; retarget] →
         verificationId rc ∉ dom (registry (session worldVerified)) →
         verificationId rc ∉ objectPrototypeKeys)
  ∧ let known :=
      filter (λ rc, verificationId rc ∈ dom (registry (session worldVerified)))
        [strayContract; retarget] in
    foldl receiveContract (registry (session worldVerified), ∅)
      [strayContract; retarget]
    = foldl receiveContract (registry (session worldVerified), ∅) known
    ∧ verifyContractsInSessionEndpoint [strayContract; retarget] worldVerified
      = verifyContractsInSessionEndpoint known worldVerified.
Proof.
  assert (H1 : ∀ rc, rc ∈ [strayContract; retarget] →
                 verificationId rc ∉ dom (registry (session worldVerified)) →
                 verificationId rc ∉ objectPrototypeKeys).
  { intros rc Hin _.
    assert (Hid : verificationId rc = "c9" ∨ verificationId rc = "c1").
    { apply elem_of_cons in Hin as [-> | Hin]; [by left |].
      apply elem_of_cons in Hin as [-> | Hin]; [by right |].
      by apply elem_of_nil in Hin. }
    destruct Hid as [-> | ->];
      apply (bool_decide_unpack (_ ∉ _)); vm_compute; exact I. }
  split; [exact H1 |].
  exact (session_verify_ignores_unknown_ids
           [strayContract; retarget] worldVerified H1).
Defined.

(** A CREATE2 claim without a session whose recomputed address differs. *)
Lemma verifyCreate2_outcomes_witness :
  let mismatch := mkMatch "0xc2" match_false (Some "address mismatch") None in
  let checkedContract := mkCheckedContract "{}" ∅ [] [] None in
  create2_validation create2Mismatch = []
  ∧ extractFilesFromJSON (files create2Mismatch)
    = Some [mkPathBuffer "A.sol" "contract A {}"]
  ∧ checkFiles [mkPathBuffer "A.sol" "contract A {}"]
    = Returned [checkedContract]
  ∧ (∀ c', c' ∈ [checkedContract] → isValid c' true = true)
  ∧ libVerifyCreate2 checkedContract (deployerAddress create2Mismatch)
      (salt create2Mismatch) (create2Address create2Mismatch)
      (abiEncodedConstructorArguments create2Mismatch) = Returned mismatch
  ∧ truthyStatus (match_status mismatch) = false
  ∧ verifyCreate2 create2Mismatch worldVerified
    = (Returned (MatchResult [mismatch]), worldVerified).
Proof.
  intros mismatch checkedContract.
  assert (H1 : create2_validation create2Mismatch = []) by reflexivity.
  assert (H2 : extractFilesFromJSON (files create2Mismatch)
               = Some [mkPathBuffer "A.sol" "contract A {}"]) by reflexivity.
  assert (H3 : checkFiles [mkPathBuffer "A.sol" "contract A {}"]
               = Returned [checkedContract]) by reflexivity.
  assert (H4 : ∀ c', c' ∈ [checkedContract] → isValid c' true = true).
  { intros c' Hin. apply elem_of_cons in Hin as [-> | Hin]; [reflexivity |].
    by apply elem_of_nil in Hin. }
  assert (H5 : libVerifyCreate2 checkedContract (deployerAddress create2Mismatch)
                 (salt create2Mismatch) (create2Address create2Mismatch)
                 (abiEncodedConstructorArguments create2Mismatch)
               = Returned mismatch) by reflexivity.
  assert (H6 : truthyStatus (match_status mismatch) = false) by reflexivity.
  split_and!; [exact H1 | exact H2 | exact H3 | exact H4 | exact H5 | exact H6 |].
  exact (proj1 (proj2 (proj2 (proj1 (proj2 (proj2 (proj2
           (verifyCreate2_outcomes create2Mismatch worldVerified H1))))
           _ _ _ H2 H3 H4) _ H5)) H6).
Defined.

(** An import without a session, answered with the engine's match. *)
Lemma verifyFromEtherscan_outcomes_witness :
  let input := mkSolcJsonInput {["A.sol" := "contract A {}"]} in
  let nonMatch := mkMatch "0xaaa" match_false (Some "bytecode mismatch") None in
  let out := verifyFromEtherscan importRequest worldVerified in
  legacy_validation importRequest = []
  ∧ out.1 = Returned (MatchResult [nonMatch])
  ∧ session out.2 = session worldVerified
  ∧ ∃ er metadata match_,
      processRequestFromEtherscan (body_chain importRequest)
        (body_address importRequest) = Returned er
      ∧ getMetadataFromCompiler (compilerVersion er) (solcJsonInput er)
          (contractName er) = Returned metadata
      ∧ verifyDeployed
          (mkCheckedContract metadata
             (getMappedSourcesFromJsonInput (solcJsonInput er)) [] [] None)
          (body_chain importRequest) (body_address importRequest) None
        = Returned match_
      ∧ MatchResult [nonMatch] = MatchResult [match_]
      ∧ newCalls worldVerified out.2
        = [CallStoreMatch
             (mkCheckedContract metadata
                (getMappedSourcesFromJsonInput (solcJsonInput er)) [] [] None)
             match_].
Proof.
  intros input nonMatch out.
  assert (H1 : legacy_validation importRequest = []) by reflexivity.
  assert (H2 : out.1 = Returned (MatchResult [nonMatch]))
    by (vm_compute; reflexivity).
  split_and!; [exact H1 | exact H2 | |].
  - exact (proj1 (verifyFromEtherscan_outcomes importRequest worldVerified H1)).
  - exact (proj2 (proj2 (proj2 (proj2
             (verifyFromEtherscan_outcomes importRequest worldVerified H1))))
             _ H2).
Defined.

#[local] Existing Instances sampleSolcJson sampleResponse.

(** Two solc-json inputs and a response object that accepts one send: the
    handler throws at the second send, after the second file was saved. *)
Lemma addInputSolcJsonEndpoint_outcomes_witness :
  let first := mkPathBuffer "a.json" "A.sol" in
  let second := mkPathBuffer "b.json" "B.sol" in
  let afterFirst := addInputSolcJsonFiles "0.8.19" [first] [] worldVerified in
  let afterSecond := addInputSolcJsonFile "0.8.19" second afterFirst.2 in
  let sent := [SessionJSON (getSessionJSON (session afterFirst.2))] in
  let body := SessionJSON (getSessionJSON (session afterSecond.2)) in
  let refused :=
    GenericError "Cannot set headers after they are sent to the client" in
  files_validation (solc_request solcJsonTwoFiles) = []
  ∧ extractFiles (solc_request solcJsonTwoFiles)
    = Some ([first] ++ second :: [])%list
  ∧ afterFirst = (Returned sent, afterFirst.2)
  ∧ afterSecond = (Returned body, afterSecond.2)
  ∧ resSend sent body = Thrown refused
  ∧ inputFiles (session afterSecond.2)
    = <["B.sol" := "contract"]> {["A.sol" := "contract"]}
  ∧ addInputSolcJsonEndpoint solcJsonTwoFiles worldVerified
    = (Thrown refused, afterSecond.2).
Proof.
  intros first second afterFirst afterSecond sent body refused.
  assert (H1 : files_validation (solc_request solcJsonTwoFiles) = [])
    by reflexivity.
  assert (H2 : extractFiles (solc_request solcJsonTwoFiles)
               = Some ([first] ++ second :: [])%list) by reflexivity.
  assert (H3 : afterFirst = (Returned sent, afterFirst.2))
    by (vm_compute; reflexivity).
  assert (H4 : afterSecond = (Returned body, afterSecond.2))
    by (vm_compute; reflexivity).
  assert (H5 : resSend sent body = Thrown refused) by reflexivity.
  assert (H6 : inputFiles (session afterSecond.2)
               = <["B.sol" := "contract"]> {["A.sol" := "contract"]})
    by (vm_compute; reflexivity).
  split_and!; [exact H1 | exact H2 | exact H3 | exact H4 | exact H5 | exact H6 |].
  exact (proj2 (proj2 (proj2 (proj2 (proj2
           (addInputSolcJsonEndpoint_outcomes solcJsonTwoFiles worldVerified))))
           [first] second [] sent afterFirst.2 H1 H2 H3)
           body afterSecond.2 refused H4 H5).
Defined.

(** Two configured tokens: the second is accepted. *)
Lemma authenticatedRequest_accepts_witness :
  ["alpha"; "beta"] ≠ ([] : list string)
  ∧ Forall (λ t, ¬ containsChar comma t) ["alpha"; "beta"]
  ∧ joinWith comma ["alpha"; "beta"] ≠ ""
  ∧ (authenticatedRequest (Some (joinWith comma ["alpha"; "beta"])) (Some "beta")
       = Returned tt
     ↔ "beta" ≠ "" ∧ "beta" ∈ ["alpha"; "beta"]).
Proof.
  assert (H1 : ["alpha"; "beta"] ≠ ([] : list string)) by discriminate.
  assert (H2 : Forall (λ t, ¬ containsChar comma t) ["alpha"; "beta"]).
  { unfold containsChar.
    apply List.Forall_cons; [| apply List.Forall_cons; [| apply List.Forall_nil]];
      apply (bool_decide_unpack (¬ _)); vm_compute; exact I. }
  assert (H3 : joinWith comma ["alpha"; "beta"] ≠ "") by discriminate.
  split_and!; [exact H1 | exact H2 | exact H3 |].
  exact (proj2 (proj2 (proj2 (proj2 authenticatedRequest_accepts)))
           ["alpha"; "beta"] "beta" H1 H2 H3).
Defined.
